(** * Kernel traits of the normalization kernels

    A shallow embedding of
    [transformer_engine/common/normalization/kernel_traits.h]: the three class
    templates [Kernel_traits_base], [Kernel_traits_finalize] and
    [Kernel_traits] become functions from their template arguments to the
    record of their enumerators.  An instantiation the compiler refuses (a
    failing [static_assert], or an initializer that is not a constant
    expression) is a [Rejected] result.

    The enumerators are integral constant expressions, so the integer types
    of C++ are part of the model: each operation is done in the type the
    usual arithmetic conversions select, unsigned types wrap around and a
    signed overflow makes the expression non-constant. *)

From Stdlib Require Import ZArith Lia Bool.

Local Open Scope Z_scope.

(** ** Integral constant expressions (LP64: 32-bit int, 64-bit long and size_t) *)

Module CInt.

Inductive ity : Type := Int | UInt | Long | ULong.

Definition is_signed (t : ity) : bool :=
  match t with Int | Long => true | UInt | ULong => false end.

Definition modulus (t : ity) : Z :=
  match t with
  | Int | UInt => 4294967296
  | Long | ULong => 18446744073709551616
  end.

Definition min_of (t : ity) : Z :=
  match t with
  | Int => -2147483648
  | Long => -9223372036854775808
  | UInt | ULong => 0
  end.

Definition max_of (t : ity) : Z :=
  match t with
  | Int => 2147483647
  | UInt => 4294967295
  | Long => 9223372036854775807
  | ULong => 18446744073709551615
  end.

Definition representable (t : ity) (z : Z) : bool :=
  (min_of t <=? z) && (z <=? max_of t).

(** Conversion rank; on LP64 the common type of two operands is the one of
    greater rank (long holds every unsigned int). *)
Definition rank (t : ity) : Z :=
  match t with Int => 0 | UInt => 1 | Long => 2 | ULong => 3 end.

Definition common (a b : ity) : ity := if rank a <=? rank b then b else a.

(** Conversion of a value to type [t]: modulo 2^w, read back as signed for a
    signed destination. *)
Definition wrap (t : ity) (z : Z) : Z :=
  if is_signed t
  then (z - min_of t) mod modulus t + min_of t
  else z mod modulus t.

(** A typed value. *)
Record cint : Type := mk { ctype : ity; cval : Z }.

Definition int (z : Z) : cint := mk Int z.          (* an int literal *)
Definition uint32_t (z : Z) : cint := mk UInt z.    (* a uint32_t template argument *)
Definition size_t (z : Z) : cint := mk ULong z.     (* the value of a sizeof *)

Definition static_cast (t : ity) (a : cint) : cint := mk t (wrap t (cval a)).

(** An enumerator of an unscoped enumeration without fixed underlying type:
    used in an expression it is promoted to the first of int, unsigned int,
    long, unsigned long that holds the values of the enumeration. *)
Definition promoted (v : Z) : ity :=
  if representable Int v then Int
  else if representable UInt v then UInt
  else if representable Long v then Long
  else ULong.

Definition enumerator (v : Z) : cint := mk (promoted v) v.

(** [sizeof] applied to an enumerator is the size of its enumeration type:
    that of int, unless a value fits neither int nor unsigned int. *)
Definition sizeof_enum (v : Z) : Z :=
  if representable Int v || representable UInt v then 4 else 8.

(** Why an instantiation is refused. *)
Inductive assertion : Type :=
  | rows_fit_a_warp          (* line 37 *)
  | four_byte_ldg            (* line 44 *)
  | one_warp_per_row         (* line 46 *)
  | cols_exact               (* line 50 *)
  | cols_multiple_of_warp    (* line 63 *)
  | warps_m_or_ctas_per_row  (* line 96 *)
  | input_ge_output          (* line 112 *)
  | input_ge_weight          (* line 113 *)
  | ldgs_exact.              (* line 120 *)

Inductive diagnostic : Type :=
  | Static_assert_failed (a : assertion)
  | Not_a_constant_expression       (* signed overflow or division by zero *)
  | Collaborator_ill_formed.        (* a template of utils.cuh is refused *)

Inductive result (A : Type) : Type :=
  | Ok (a : A)
  | Rejected (d : diagnostic).

Arguments Ok {A} a.
Arguments Rejected {A} d.

Definition bind {A B : Type} (r : result A) (k : A -> result B) : result B :=
  match r with
  | Ok a => k a
  | Rejected d => Rejected d
  end.

Definition accepted {A : Type} (r : result A) : bool :=
  match r with Ok _ => true | Rejected _ => false end.

(** The result of an operation computed in type [t]. *)
Definition in_type (t : ity) (z : Z) : result cint :=
  if is_signed t
  then if representable t z then Ok (mk t z) else Rejected Not_a_constant_expression
  else Ok (mk t (z mod modulus t)).

Definition binop (op : Z -> Z -> Z) (a b : cint) : result cint :=
  let t := common (ctype a) (ctype b) in
  in_type t (op (wrap t (cval a)) (wrap t (cval b))).

Definition mul : cint -> cint -> result cint := binop Z.mul.
Definition add : cint -> cint -> result cint := binop Z.add.

Definition divop (op : Z -> Z -> Z) (a b : cint) : result cint :=
  let t := common (ctype a) (ctype b) in
  if wrap t (cval b) =? 0 then Rejected Not_a_constant_expression
  else in_type t (op (wrap t (cval a)) (wrap t (cval b))).

(** C++ division truncates towards zero. *)
Definition div : cint -> cint -> result cint := divop Z.quot.
Definition rem : cint -> cint -> result cint := divop Z.rem.

Definition compare (op : Z -> Z -> bool) (a b : cint) : bool :=
  let t := common (ctype a) (ctype b) in
  op (wrap t (cval a)) (wrap t (cval b)).

Definition eq : cint -> cint -> bool := compare Z.eqb.
Definition le : cint -> cint -> bool := compare Z.leb.
Definition ge : cint -> cint -> bool := compare Z.geb.
Definition gt : cint -> cint -> bool := compare Z.gtb.

Definition static_assert (a : assertion) (b : bool) : result unit :=
  if b then Ok tt else Rejected (Static_assert_failed a).

(** The initializer of an enumerator gives it its value. *)
Definition enum (init : result cint) : result Z :=
  bind init (fun c => Ok (cval c)).

End CInt.

Import CInt.

Notation "x <- e ;; k" := (bind e (fun x => k))
  (at level 61, e at next level, right associativity).
Notation "e ;;; k" := (bind e (fun _ => k))
  (at level 61, right associativity).

(** The values of a [uint32_t] template argument, of a [size_t], and the
    non-negative values of an [int]. *)
Definition uint32 (z : Z) : Prop := 0 <= z <= 4294967295.
Definition uint64 (z : Z) : Prop := 0 <= z <= 18446744073709551615.
Definition nonneg_int (z : Z) : Prop := 0 <= z <= 2147483647.

(** A non-negative value that its type holds. *)
Definition held (c : cint) : Prop :=
  0 <= cval c /\ representable (ctype c) (cval c) = true.

(** An element type, known to the traits through [sizeof] only. *)
Record elt_type : Type := { sizeof : Z }.

Definition sizeof_ (t : elt_type) : cint := size_t (sizeof t).

(** ** Kernel_traits_base *)

Module Base.

Record traits : Type := {
  weight_t : elt_type;
  input_t : elt_type;
  output_t : elt_type;
  compute_t : elt_type;
  index_t : elt_type;
  HIDDEN_SIZE : Z;
  THREADS_PER_CTA : Z;
  THREADS_PER_WARP : Z
}.

Definition Kernel_traits_base (HIDDEN_SIZE_ : Z)
    (weight_t_ input_t_ output_t_ compute_t_ index_t_ : elt_type)
    (THREADS_PER_CTA_ : Z) : traits :=
  {| weight_t := weight_t_;
     input_t := input_t_;
     output_t := output_t_;
     compute_t := compute_t_;
     index_t := index_t_;
     HIDDEN_SIZE := cval (uint32_t HIDDEN_SIZE_);
     THREADS_PER_CTA := cval (uint32_t THREADS_PER_CTA_);
     THREADS_PER_WARP := cval (int 32) |}.

End Base.

(** ** Kernel_traits_finalize *)

Module Finalize.

Record traits : Type := {
  base : Base.traits;
  ROWS_PER_CTA : Z;
  BYTES_PER_LDG : Z;
  ELTS_PER_LDG : Z;
  BYTES_PER_STG : Z;
  COLS : Z;
  SMEM_BYTES_TRANSPOSE : Z;
  SMEM_BYTES_OUTPUT : Z;
  SMEM_BYTES_PER_CTA : Z;
  CTAS : Z
}.

(** [Base] is the default argument of the template.  The alias [Reducer]
    names a type without instantiating it. *)
Definition Kernel_traits_finalize (HIDDEN_SIZE_ : Z)
    (weight_t_ input_t_ output_t_ compute_t_ index_t_ : elt_type)
    (THREADS_PER_CTA_ BYTES_PER_LDG_ : Z) : result traits :=
  let Base := Base.Kernel_traits_base HIDDEN_SIZE_ weight_t_ input_t_ output_t_
                                      compute_t_ index_t_ THREADS_PER_CTA_ in
  (* line 36 *)
  ROWS_PER_CTA <- enum (div (enumerator (Base.THREADS_PER_CTA Base))
                            (enumerator (Base.THREADS_PER_WARP Base))) ;;
  (* line 37 *)
  static_assert rows_fit_a_warp
    (le (static_cast Int (enumerator ROWS_PER_CTA))
        (static_cast Int (enumerator (Base.THREADS_PER_WARP Base)))) ;;;
  (* lines 39, 41, 43 *)
  BYTES_PER_LDG <- enum (Ok (uint32_t BYTES_PER_LDG_)) ;;
  ELTS_PER_LDG <- enum (div (enumerator BYTES_PER_LDG) (sizeof_ compute_t_)) ;;
  BYTES_PER_STG <- enum (mul (enumerator ELTS_PER_LDG) (sizeof_ weight_t_)) ;;
  (* line 44: sizeof(BYTES_PER_LDG) == 4 *)
  static_assert four_byte_ldg
    (eq (size_t (sizeof_enum BYTES_PER_LDG)) (int 4)) ;;;
  (* line 46 *)
  (rows_x_warp <- mul (enumerator ROWS_PER_CTA)
                      (enumerator (Base.THREADS_PER_WARP Base)) ;;
   static_assert one_warp_per_row
     (eq (enumerator (Base.THREADS_PER_CTA Base)) rows_x_warp)) ;;;
  (* lines 49, 50 *)
  COLS <- enum (bytes <- mul (uint32_t HIDDEN_SIZE_) (sizeof_ compute_t_) ;;
                div bytes (enumerator BYTES_PER_LDG)) ;;
  (lhs <- mul (enumerator COLS) (enumerator BYTES_PER_LDG) ;;
   rhs <- mul (uint32_t HIDDEN_SIZE_) (sizeof_ compute_t_) ;;
   static_assert cols_exact (eq lhs rhs)) ;;;
  (* lines 53, 55, 57 *)
  SMEM_BYTES_TRANSPOSE <- enum (mul (enumerator (Base.THREADS_PER_CTA Base))
                                    (enumerator BYTES_PER_LDG)) ;;
  SMEM_BYTES_OUTPUT <- enum (mul (enumerator (Base.THREADS_PER_WARP Base))
                                 (enumerator BYTES_PER_LDG)) ;;
  SMEM_BYTES_PER_CTA <- enum (a <- mul (int 2) (enumerator SMEM_BYTES_TRANSPOSE) ;;
                              b <- mul (int 2) (enumerator SMEM_BYTES_OUTPUT) ;;
                              add a b) ;;
  (* lines 63, 64 *)
  (r <- rem (enumerator COLS) (enumerator (Base.THREADS_PER_WARP Base)) ;;
   static_assert cols_multiple_of_warp (eq r (int 0))) ;;;
  CTAS <- enum (div (enumerator COLS) (enumerator (Base.THREADS_PER_WARP Base))) ;;
  Ok {| base := Base;
        ROWS_PER_CTA := ROWS_PER_CTA;
        BYTES_PER_LDG := BYTES_PER_LDG;
        ELTS_PER_LDG := ELTS_PER_LDG;
        BYTES_PER_STG := BYTES_PER_STG;
        COLS := COLS;
        SMEM_BYTES_TRANSPOSE := SMEM_BYTES_TRANSPOSE;
        SMEM_BYTES_OUTPUT := SMEM_BYTES_OUTPUT;
        SMEM_BYTES_PER_CTA := SMEM_BYTES_PER_CTA;
        CTAS := CTAS |}.

End Finalize.

(** ** Kernel_traits *)

(** Modelled from the spec: the namespace-scope constant [THREADS_PER_WARP]
    that [Kernel_traits] reads (declared in [utils.cuh], a 32-bit unsigned
    constant); the warp size is fixed at 32. *)
Definition THREADS_PER_WARP : cint := uint32_t 32.

Module Main.

Record traits : Type := {
  base : Base.traits;
  CTAS_PER_ROW : Z;
  WARPS_M : Z;
  WARPS_N : Z;
  COLS : Z;
  HIDDEN_SIZE : Z;
  BYTES_PER_LDG : Z;
  NUM_ELTS : Z;
  THREADS_PER_ROW : Z;
  THREADS_PER_CTA : Z;
  ROWS_PER_CTA : Z;
  BYTES_PER_ROW : Z;
  BYTES_PER_ROW_PER_CTA : Z;
  SMEM_BYTES_WGRAD : Z;
  reduce_t : elt_type;
  SMEM_BYTES_DGRAD : Z;
  SMEM_BYTES : Z;
  ELTS_PER_LDG : Z;
  VEC_COLS_PER_LDG : Z;
  VEC_COLS : Z;
  LDGS : Z;
  SMEM_BYTES_FWD : Z
}.

Definition instantiate {A : Type} (o : option A) : result A :=
  match o with
  | Some a => Ok a
  | None => Rejected Collaborator_ill_formed
  end.

Section Collaborators.

(** The templates of [utils.cuh] the traits instantiate: [TypeToVec2<T>::Type],
    and the [SMEM_BYTES] enumerator of [Reducer<T, CTAS_PER_ROW, WARPS_M,
    WARPS_N>] and of [Stats<T, CTAS_PER_ROW, WARPS_M, WARPS_N>]; [None] where
    the instantiation is refused. *)
Variable TypeToVec2 : elt_type -> option elt_type.
Variable Reducer_SMEM_BYTES : elt_type -> Z -> Z -> Z -> option Z.
Variable Stats_SMEM_BYTES : elt_type -> Z -> Z -> Z -> option Z.

(** [BYTES_PER_LDG_] defaults to 16 and [Base] is the default argument of the
    template, with [WARPS_M_ * WARPS_N_ * THREADS_PER_WARP] threads.  The
    aliases [Ivec], [Ovec], [Wvec] and [Cvec] name types without
    instantiating them. *)
Definition Kernel_traits
    (weight_t_ input_t_ output_t_ compute_t_ index_t_ : elt_type)
    (HIDDEN_SIZE_ CTAS_PER_ROW_ WARPS_M_ WARPS_N_ BYTES_PER_LDG_ : Z)
    : result traits :=
  (* line 72 *)
  THREADS_PER_CTA_ <- enum (warps <- mul (uint32_t WARPS_M_) (uint32_t WARPS_N_) ;;
                            mul warps THREADS_PER_WARP) ;;
  let Base := Base.Kernel_traits_base HIDDEN_SIZE_ weight_t_ input_t_ output_t_
                                      compute_t_ index_t_ THREADS_PER_CTA_ in
  let input_t := Base.input_t Base in
  let weight_t := Base.weight_t Base in
  let compute_t := Base.compute_t Base in
  let output_t := Base.output_t Base in
  (* lines 80 to 86 *)
  CTAS_PER_ROW <- enum (Ok (uint32_t CTAS_PER_ROW_)) ;;
  WARPS_M <- enum (Ok (uint32_t WARPS_M_)) ;;
  WARPS_N <- enum (Ok (uint32_t WARPS_N_)) ;;
  COLS <- enum (Ok (uint32_t HIDDEN_SIZE_)) ;;
  HIDDEN_SIZE <- enum (Ok (uint32_t HIDDEN_SIZE_)) ;;
  BYTES_PER_LDG <- enum (Ok (uint32_t BYTES_PER_LDG_)) ;;
  NUM_ELTS <- enum (div (enumerator BYTES_PER_LDG) (sizeof_ input_t)) ;;
  (* lines 88 to 90 *)
  THREADS_PER_ROW <- enum (mul (enumerator WARPS_N) THREADS_PER_WARP) ;;
  THREADS_PER_CTA <- enum (mul (enumerator WARPS_M) (enumerator THREADS_PER_ROW)) ;;
  ROWS_PER_CTA <- enum (Ok (enumerator WARPS_M)) ;;
  (* lines 92, 93 *)
  BYTES_PER_ROW <- enum (mul (enumerator COLS) (sizeof_ input_t)) ;;
  BYTES_PER_ROW_PER_CTA <- enum (mul (enumerator THREADS_PER_ROW)
                                     (enumerator BYTES_PER_LDG)) ;;
  (* line 95: only the selected operand is evaluated, as a size_t *)
  SMEM_BYTES_WGRAD <- enum (if gt (enumerator CTAS_PER_ROW) (int 1)
                            then Ok (static_cast ULong (int 0))
                            else rows_x_cols <- mul (enumerator ROWS_PER_CTA)
                                                    (enumerator COLS) ;;
                                 mul rows_x_cols (sizeof_ compute_t)) ;;
  (* line 96 *)
  static_assert warps_m_or_ctas_per_row
    (eq (enumerator WARPS_M) (int 1) || eq (enumerator CTAS_PER_ROW) (int 1)) ;;;
  (* lines 98 to 102 *)
  reduce_t <- instantiate (TypeToVec2 compute_t) ;;
  SMEM_BYTES_DGRAD <- instantiate (Reducer_SMEM_BYTES reduce_t CTAS_PER_ROW
                                                      WARPS_M WARPS_N) ;;
  SMEM_BYTES <- enum (add (enumerator SMEM_BYTES_DGRAD)
                          (enumerator SMEM_BYTES_WGRAD)) ;;
  (* line 108 *)
  ELTS_PER_LDG <- enum (div (enumerator BYTES_PER_LDG) (sizeof_ input_t)) ;;
  (* lines 112, 113 *)
  static_assert input_ge_output (ge (sizeof_ input_t) (sizeof_ output_t)) ;;;
  static_assert input_ge_weight (ge (sizeof_ input_t) (sizeof_ weight_t)) ;;;
  (* lines 115 to 120; the assertion of line 121 is commented out *)
  VEC_COLS_PER_LDG <- enum (mul (enumerator CTAS_PER_ROW)
                                (enumerator THREADS_PER_ROW)) ;;
  VEC_COLS <- enum (div (enumerator COLS) (enumerator ELTS_PER_LDG)) ;;
  LDGS <- enum (div (enumerator VEC_COLS) (enumerator VEC_COLS_PER_LDG)) ;;
  (lhs <- mul (enumerator LDGS) (enumerator VEC_COLS_PER_LDG) ;;
   static_assert ldgs_exact (eq lhs (enumerator VEC_COLS))) ;;;
  (* lines 123, 124 *)
  SMEM_BYTES_FWD <- instantiate (Stats_SMEM_BYTES compute_t CTAS_PER_ROW
                                                  WARPS_M WARPS_N) ;;
  Ok {| base := Base;
        CTAS_PER_ROW := CTAS_PER_ROW;
        WARPS_M := WARPS_M;
        WARPS_N := WARPS_N;
        COLS := COLS;
        HIDDEN_SIZE := HIDDEN_SIZE;
        BYTES_PER_LDG := BYTES_PER_LDG;
        NUM_ELTS := NUM_ELTS;
        THREADS_PER_ROW := THREADS_PER_ROW;
        THREADS_PER_CTA := THREADS_PER_CTA;
        ROWS_PER_CTA := ROWS_PER_CTA;
        BYTES_PER_ROW := BYTES_PER_ROW;
        BYTES_PER_ROW_PER_CTA := BYTES_PER_ROW_PER_CTA;
        SMEM_BYTES_WGRAD := SMEM_BYTES_WGRAD;
        reduce_t := reduce_t;
        SMEM_BYTES_DGRAD := SMEM_BYTES_DGRAD;
        SMEM_BYTES := SMEM_BYTES;
        ELTS_PER_LDG := ELTS_PER_LDG;
        VEC_COLS_PER_LDG := VEC_COLS_PER_LDG;
        VEC_COLS := VEC_COLS;
        LDGS := LDGS;
        SMEM_BYTES_FWD := SMEM_BYTES_FWD |}.

End Collaborators.

End Main.

(** ** Element types and collaborators of the examples *)

Definition one_byte : elt_type := {| sizeof := 1 |}.
Definition two_byte : elt_type := {| sizeof := 2 |}.
Definition four_byte : elt_type := {| sizeof := 4 |}.
Definition eight_byte : elt_type := {| sizeof := 8 |}.

(** The theorems on [Main.Kernel_traits] hold for every collaborator; the
    closed examples are run with these, which size a region by element type
    and topology. *)
Module Sample.

Definition TypeToVec2 (T : elt_type) : option elt_type :=
  Some {| sizeof := 2 * sizeof T |}.

Definition Reducer_SMEM_BYTES (T : elt_type) (CTAS_PER_ROW WARPS_M WARPS_N : Z)
    : option Z :=
  Some (CTAS_PER_ROW * WARPS_M * WARPS_N * sizeof T).

Definition Stats_SMEM_BYTES (T : elt_type) (CTAS_PER_ROW WARPS_M WARPS_N : Z)
    : option Z :=
  Some (CTAS_PER_ROW * WARPS_M * WARPS_N * sizeof T * 2).

Definition Kernel_traits :=
  Main.Kernel_traits TypeToVec2 Reducer_SMEM_BYTES Stats_SMEM_BYTES.

End Sample.

(** ** Typed arithmetic on values that are in range *)

Lemma representable_spec (t : ity) (z : Z) :
  representable t z = true <-> min_of t <= z <= max_of t.
Proof.
  unfold representable. rewrite andb_true_iff, !Z.leb_le. tauto.
Qed.

Lemma wrap_held (t : ity) (z : Z) :
  representable t z = true -> wrap t z = z.
Proof.
  rewrite representable_spec. intros Hz. unfold wrap.
  destruct t; cbn in *; try (apply Z.mod_small; lia);
    rewrite Z.mod_small; lia.
Qed.

Lemma representable_common (a b : ity) (z : Z) :
  0 <= z -> representable a z = true ->
  representable (common a b) z = true /\ representable (common b a) z = true.
Proof.
  rewrite !representable_spec. intros H0 Ha.
  destruct a, b; cbn in *; lia.
Qed.

Lemma held_enumerator (v : Z) : uint64 v -> held (enumerator v).
Proof.
  unfold uint64, held, enumerator, promoted. cbn [cval ctype]. intros Hv.
  split; [lia|].
  destruct (representable Int v) eqn:E1; [assumption|].
  destruct (representable UInt v) eqn:E2; [assumption|].
  destruct (representable Long v) eqn:E3; [assumption|].
  apply representable_spec. cbn. lia.
Qed.

Lemma held_uint32_t (v : Z) : uint32 v -> held (uint32_t v).
Proof.
  unfold uint32, held. cbn. intros Hv. split; [lia|].
  apply representable_spec. cbn. lia.
Qed.

Lemma held_size_t (v : Z) : uint64 v -> held (size_t v).
Proof.
  unfold uint64, held. cbn. intros Hv. split; [lia|].
  apply representable_spec. cbn. lia.
Qed.

Lemma held_int (v : Z) : nonneg_int v -> held (int v).
Proof.
  unfold nonneg_int, held. cbn. intros Hv. split; [lia|].
  apply representable_spec. cbn. lia.
Qed.

Lemma held_uint64 (c : cint) : held c -> uint64 (cval c).
Proof.
  intros [H0 Hr]. apply representable_spec in Hr. unfold uint64.
  destruct (ctype c); cbn in Hr; lia.
Qed.

Lemma promoted_int (v : Z) : nonneg_int v -> promoted v = Int.
Proof.
  unfold nonneg_int, promoted. intros Hv.
  replace (representable Int v) with true; [reflexivity|].
  symmetry. apply representable_spec. cbn. lia.
Qed.

Lemma held_max (c : cint) : held c -> cval c <= max_of (ctype c).
Proof. intros [_ Hr]. apply representable_spec in Hr. lia. Qed.

Lemma in_type_held (t : ity) (z : Z) (r : cint) :
  0 <= z -> in_type t z = Ok r ->
  held r /\ ctype r = t /\ cval r <= z /\
  (is_signed t = true -> cval r = z) /\
  (is_signed t = false -> cval r = z mod modulus t) /\
  (z <= max_of t -> cval r = z).
Proof.
  intros Hz. unfold in_type.
  destruct (is_signed t) eqn:Es.
  - destruct (representable t z) eqn:Er; [|discriminate].
    intros [= <-]. cbn. unfold held. cbn. intuition (try lia; discriminate).
  - intros [= <-]. cbn.
    assert (Hm : 0 < modulus t) by (destruct t; cbn; lia).
    pose proof (Z.mod_pos_bound z (modulus t) Hm) as Hb.
    pose proof (Z.mod_le z (modulus t) Hz Hm) as Hle.
    unfold held. cbn. repeat split; try lia; try discriminate.
    + apply representable_spec. destruct t; cbn in *; try discriminate; lia.
    + intros Hmax. apply Z.mod_small. destruct t; cbn in *; try discriminate; lia.
Qed.

Lemma mul_held (a b r : cint) :
  held a -> held b -> mul a b = Ok r ->
  held r /\ ctype r = common (ctype a) (ctype b) /\
  0 <= cval r <= max_of (common (ctype a) (ctype b)) /\
  cval r <= cval a * cval b /\
  (is_signed (common (ctype a) (ctype b)) = true -> cval r = cval a * cval b) /\
  (is_signed (common (ctype a) (ctype b)) = false ->
   cval r = (cval a * cval b) mod modulus (common (ctype a) (ctype b))) /\
  (cval a * cval b <= max_of (common (ctype a) (ctype b)) ->
   cval r = cval a * cval b).
Proof.
  intros [Ha0 Ha] [Hb0 Hb]. unfold mul, binop.
  destruct (representable_common (ctype a) (ctype b) (cval a) Ha0 Ha) as [Ha' _].
  destruct (representable_common (ctype b) (ctype a) (cval b) Hb0 Hb) as [_ Hb'].
  rewrite (wrap_held _ _ Ha'), (wrap_held _ _ Hb').
  intros Hr. apply in_type_held in Hr; [|nia].
  destruct Hr as (Hh & Ht & Hr). pose proof (held_max r Hh) as Hmax.
  rewrite Ht in Hmax. destruct Hh as [H0 Hh]. unfold held. tauto.
Qed.

Lemma add_held (a b r : cint) :
  held a -> held b -> add a b = Ok r ->
  held r /\ ctype r = common (ctype a) (ctype b) /\
  0 <= cval r <= max_of (common (ctype a) (ctype b)) /\
  (is_signed (common (ctype a) (ctype b)) = true -> cval r = cval a + cval b).
Proof.
  intros [Ha0 Ha] [Hb0 Hb]. unfold add, binop.
  destruct (representable_common (ctype a) (ctype b) (cval a) Ha0 Ha) as [Ha' _].
  destruct (representable_common (ctype b) (ctype a) (cval b) Hb0 Hb) as [_ Hb'].
  rewrite (wrap_held _ _ Ha'), (wrap_held _ _ Hb').
  intros Hr. apply in_type_held in Hr; [|lia].
  destruct Hr as (Hh & Ht & Hr). pose proof (held_max r Hh) as Hmax.
  rewrite Ht in Hmax. destruct Hh as [H0 Hh]. unfold held. tauto.
Qed.

Lemma div_held (a b r : cint) :
  held a -> held b -> div a b = Ok r ->
  held r /\ cval b <> 0 /\ cval r = cval a / cval b /\
  cval b * cval r <= cval a < cval b * cval r + cval b.
Proof.
  intros [Ha0 Ha] [Hb0 Hb]. unfold div, divop.
  destruct (representable_common (ctype a) (ctype b) (cval a) Ha0 Ha) as [Ha' _].
  destruct (representable_common (ctype b) (ctype a) (cval b) Hb0 Hb) as [_ Hb'].
  rewrite (wrap_held _ _ Ha'), (wrap_held _ _ Hb').
  destruct (Z.eqb_spec (cval b) 0) as [|Hnz]; [discriminate|].
  rewrite Z.quot_div_nonneg by lia.
  assert (Hq : 0 <= cval a / cval b <= cval a).
  { split; [apply Z.div_pos; lia|]. apply Z.div_le_upper_bound; nia. }
  intros Hr. apply in_type_held in Hr; [|lia].
  destruct Hr as (Hh & _ & _ & _ & _ & Hv).
  assert (Hr : cval r = cval a / cval b).
  { apply Hv. apply representable_spec in Ha'. lia. }
  rewrite Hr. repeat split; try apply Hh; try assumption.
  - apply Z.mul_div_le. lia.
  - pose proof (Z.mul_succ_div_gt (cval a) (cval b)). lia.
Qed.

Lemma rem_held (a b r : cint) :
  held a -> held b -> rem a b = Ok r ->
  held r /\ cval b <> 0 /\ cval r = cval a mod cval b /\
  0 <= cval r < cval b.
Proof.
  intros [Ha0 Ha] [Hb0 Hb]. unfold rem, divop.
  destruct (representable_common (ctype a) (ctype b) (cval a) Ha0 Ha) as [Ha' _].
  destruct (representable_common (ctype b) (ctype a) (cval b) Hb0 Hb) as [_ Hb'].
  rewrite (wrap_held _ _ Ha'), (wrap_held _ _ Hb').
  destruct (Z.eqb_spec (cval b) 0) as [|Hnz]; [discriminate|].
  rewrite Z.rem_mod_nonneg by lia.
  assert (Hq : 0 <= cval a mod cval b <= cval a).
  { pose proof (Z.mod_pos_bound (cval a) (cval b)).
    pose proof (Z.mod_le (cval a) (cval b)). lia. }
  intros Hr. apply in_type_held in Hr; [|lia].
  destruct Hr as (Hh & _ & _ & _ & _ & Hv).
  assert (Hr : cval r = cval a mod cval b).
  { apply Hv. apply representable_spec in Ha'. lia. }
  rewrite Hr. repeat split; try apply Hh; try assumption;
    apply Z.mod_pos_bound; lia.
Qed.

Lemma compare_held (op : Z -> Z -> bool) (a b : cint) :
  held a -> held b -> compare op a b = op (cval a) (cval b).
Proof.
  intros [Ha0 Ha] [Hb0 Hb]. unfold compare.
  destruct (representable_common (ctype a) (ctype b) (cval a) Ha0 Ha) as [Ha' _].
  destruct (representable_common (ctype b) (ctype a) (cval b) Hb0 Hb) as [_ Hb'].
  now rewrite (wrap_held _ _ Ha'), (wrap_held _ _ Hb').
Qed.

(** ** Reading an accepted instantiation back *)

Lemma bind_Ok {A B : Type} (e : result A) (k : A -> result B) (b : B) :
  bind e k = Ok b -> exists a, e = Ok a /\ k a = Ok b.
Proof. destruct e as [a|d]; cbn; [eauto | discriminate]. Qed.

Lemma enum_Ok (e : result cint) (v : Z) :
  enum e = Ok v -> exists c, e = Ok c /\ v = cval c.
Proof. destruct e as [c|d]; cbn; [intros [= <-]; eauto | discriminate]. Qed.

Lemma static_assert_Ok (a : assertion) (b : bool) (u : unit) :
  static_assert a b = Ok u -> b = true.
Proof. destruct b; [reflexivity | discriminate]. Qed.

Lemma instantiate_Ok {A : Type} (o : option A) (a : A) :
  Main.instantiate o = Ok a -> o = Some a.
Proof. destruct o; cbn; [intros [= <-]; reflexivity | discriminate]. Qed.

Ltac read_back :=
  repeat match goal with
  | H : enum _ = Ok _ |- _ =>
      apply enum_Ok in H; destruct H as (? & H & ?)
  | H : static_assert _ _ = Ok _ |- _ => apply static_assert_Ok in H
  | H : Main.instantiate _ = Ok _ |- _ => apply instantiate_Ok in H
  | H : bind _ _ = Ok _ |- _ =>
      apply bind_Ok in H; destruct H as (? & ? & H); cbv beta in H
  | H : Ok _ = Ok _ |- _ => injection H as H
  end.

Lemma promoted_cases (v : Z) :
  uint64 v ->
  (v <= 2147483647 /\ promoted v = Int) \/
  (2147483648 <= v <= 4294967295 /\ promoted v = UInt) \/
  (4294967296 <= v <= 9223372036854775807 /\ promoted v = Long) \/
  (9223372036854775808 <= v /\ promoted v = ULong).
Proof.
  unfold uint64, promoted. intros Hv.
  destruct (representable Int v) eqn:E1.
  { apply representable_spec in E1. cbn in E1. left. split; [lia|reflexivity]. }
  destruct (representable UInt v) eqn:E2.
  { apply representable_spec in E2. cbn in E2. right; left.
    split; [|reflexivity]. unfold representable in E1. cbn in E1. lia. }
  destruct (representable Long v) eqn:E3.
  { apply representable_spec in E3. cbn in E3. right; right; left.
    split; [|reflexivity]. unfold representable in E2. cbn in E2. lia. }
  right; right; right. split; [|reflexivity].
  unfold representable in E3. cbn in E3. lia.
Qed.

Lemma common_same (t : ity) : common t t = t.
Proof. now destruct t. Qed.
Lemma common_Int_l (t : ity) : common Int t = t.
Proof. now destruct t. Qed.
Lemma common_Int_r (t : ity) : common t Int = t.
Proof. now destruct t. Qed.
Lemma common_ULong_l (t : ity) : common ULong t = ULong.
Proof. now destruct t. Qed.
Lemma common_ULong_r (t : ity) : common t ULong = ULong.
Proof. now destruct t. Qed.
Lemma common_UInt_Long : common UInt Long = Long.
Proof. reflexivity. Qed.
Lemma common_Long_UInt : common Long UInt = Long.
Proof. reflexivity. Qed.

Lemma eq_held (a b : cint) :
  held a -> held b -> CInt.eq a b = (cval a =? cval b).
Proof. apply compare_held. Qed.

Lemma le_held (a b : cint) :
  held a -> held b -> le a b = (cval a <=? cval b).
Proof. apply compare_held. Qed.

Lemma ge_held (a b : cint) :
  held a -> held b -> ge a b = (cval a >=? cval b).
Proof. apply compare_held. Qed.

Lemma gt_held (a b : cint) :
  held a -> held b -> gt a b = (cval a >? cval b).
Proof. apply compare_held. Qed.

Lemma le_static_cast_int (a b : Z) :
  nonneg_int a -> nonneg_int b ->
  le (static_cast Int (enumerator a)) (static_cast Int (enumerator b)) = (a <=? b).
Proof.
  unfold nonneg_int. intros Ha Hb. unfold le, compare, static_cast.
  cbn [ctype cval enumerator]. rewrite common_same.
  assert (Hw : forall z, 0 <= z <= 2147483647 -> wrap Int z = z).
  { intros z Hz. apply wrap_held, representable_spec. cbn. lia. }
  now rewrite !Hw by (rewrite ?Hw; lia).
Qed.

Lemma div_total (a b : cint) :
  held a -> held b -> cval b <> 0 ->
  exists r, div a b = Ok r /\ cval r = cval a / cval b.
Proof.
  intros Ha Hb Hnz.
  destruct (div a b) as [r|d] eqn:E.
  - exists r. split; [reflexivity|]. now apply (div_held a b r Ha Hb E).
  - exfalso. revert E. unfold div, divop.
    destruct Ha as [Ha0 Ha], Hb as [Hb0 Hb].
    destruct (representable_common (ctype a) (ctype b) (cval a) Ha0 Ha) as [Ha' _].
    destruct (representable_common (ctype b) (ctype a) (cval b) Hb0 Hb) as [_ Hb'].
    rewrite (wrap_held _ _ Ha'), (wrap_held _ _ Hb').
    destruct (Z.eqb_spec (cval b) 0) as [|_]; [contradiction|].
    rewrite Z.quot_div_nonneg by lia.
    assert (Hq : 0 <= cval a / cval b <= cval a).
    { split; [apply Z.div_pos; lia|]. apply Z.div_le_upper_bound; nia. }
    unfold in_type. destruct (is_signed _); [|discriminate].
    replace (representable _ _) with true; [discriminate|].
    symmetry. apply representable_spec. apply representable_spec in Ha'.
    destruct (common (ctype a) (ctype b)); cbn in *; lia.
Qed.

(** ** Proof automation *)

Ltac dlia := Z.to_euclidean_division_equations; lia.

Ltac in_range :=
  first [ assumption
        | apply held_uint64; assumption
        | unfold uint64, uint32, nonneg_int in *; lia ].

Ltac held_tac :=
  first [ assumption
        | apply held_enumerator; in_range
        | apply held_uint32_t; in_range
        | apply held_size_t; in_range
        | apply held_int; in_range ].

Ltac values F := cbn [cval ctype enumerator uint32_t size_t int] in F.

(** Replaces every operation of an accepted instantiation by what it says
    about the values. *)
Ltac typed_facts :=
  subst; unfold sizeof_, THREADS_PER_WARP in *; cbn [cval uint32_t int] in *;
  repeat match goal with
  | H : mul ?a ?b = Ok ?r |- _ =>
      let F := fresh "F" in
      assert (F := mul_held a b r ltac:(held_tac) ltac:(held_tac) H);
      clear H; values F; destruct F as (? & ? & ? & ? & ? & ? & ?)
  | H : add ?a ?b = Ok ?r |- _ =>
      let F := fresh "F" in
      assert (F := add_held a b r ltac:(held_tac) ltac:(held_tac) H);
      clear H; values F; destruct F as (? & ? & ? & ?)
  | H : div ?a ?b = Ok ?r |- _ =>
      let F := fresh "F" in
      assert (F := div_held a b r ltac:(held_tac) ltac:(held_tac) H);
      clear H; values F; destruct F as (? & ? & ? & ?)
  | H : rem ?a ?b = Ok ?r |- _ =>
      let F := fresh "F" in
      assert (F := rem_held a b r ltac:(held_tac) ltac:(held_tac) H);
      clear H; values F; destruct F as (? & ? & ? & ?)
  | H : CInt.eq ?a ?b = true |- _ =>
      rewrite (eq_held a b ltac:(held_tac) ltac:(held_tac)) in H; values H
  | H : le ?a ?b = true |- _ =>
      rewrite (le_held a b ltac:(held_tac) ltac:(held_tac)) in H; values H
  | H : ge ?a ?b = true |- _ =>
      rewrite (ge_held a b ltac:(held_tac) ltac:(held_tac)) in H; values H
  | H : le (static_cast Int (enumerator ?a)) (static_cast Int (enumerator ?b))
        = true |- _ =>
      rewrite (le_static_cast_int a b ltac:(in_range) ltac:(in_range)) in H
  end.

(** Runs an instantiation on concrete arguments. *)
Ltac run :=
  match goal with
  | |- exists t, ?e = Ok t /\ _ =>
      let v := eval vm_compute in e in
      match v with
      | Ok ?t => exists t; split; [vm_compute; reflexivity|]
      end
  end.

(** The promoted type of an enumerator whose value fits an int. *)
Ltac promote_int v :=
  try rewrite (promoted_int v) in * by in_range.

(** Settles the types that are known and turns boolean tests into
    propositions. *)
Ltac resolve_types :=
  rewrite ?common_same, ?common_Int_l, ?common_Int_r, ?common_ULong_l,
    ?common_ULong_r, ?common_UInt_Long, ?common_Long_UInt in *;
  cbn [is_signed modulus max_of] in *;
  repeat match goal with
  | H : ctype ?x = ?t, H' : context [ctype ?x] |- _ =>
      lazymatch type of H' with
      | ctype x = _ => fail
      | _ => rewrite H in H'
      end
  end;
  rewrite ?common_same, ?common_Int_l, ?common_Int_r, ?common_ULong_l,
    ?common_ULong_r, ?common_UInt_Long, ?common_Long_UInt in *;
  cbn [is_signed modulus max_of] in *;
  repeat match goal with
  | H : true = true -> _ |- _ => specialize (H eq_refl)
  | H : false = false -> _ |- _ => specialize (H eq_refl)
  | H : true = false -> _ |- _ => clear H
  | H : false = true -> _ |- _ => clear H
  | H : (_ =? _) = true |- _ => apply Z.eqb_eq in H
  | H : (_ <=? _) = true |- _ => apply Z.leb_le in H
  | H : (_ >=? _) = true |- _ => rewrite Z.geb_le in H
  | H : (_ >? _) = true |- _ => rewrite Z.gtb_lt in H
  end.

Ltac flatten :=
  repeat match goal with
  | x : cint |- _ => destruct x as [? ?]; cbn [cval ctype] in *
  end;
  subst.

Ltac open_finalize H :=
  unfold Finalize.Kernel_traits_finalize in H; cbv zeta in H;
  cbn [Base.Kernel_traits_base Base.THREADS_PER_CTA Base.THREADS_PER_WARP
       cval uint32_t int] in H;
  read_back.

(** What an accepted finalize instantiation says about the load columns. *)
Lemma finalize_cols HIDDEN_SIZE_ weight_t_ input_t_ output_t_ compute_t_ index_t_
    THREADS_PER_CTA_ BYTES_PER_LDG_ t :
  uint32 HIDDEN_SIZE_ -> uint32 BYTES_PER_LDG_ -> uint32 (sizeof compute_t_) ->
  Finalize.Kernel_traits_finalize HIDDEN_SIZE_ weight_t_ input_t_ output_t_
    compute_t_ index_t_ THREADS_PER_CTA_ BYTES_PER_LDG_ = Ok t ->
  Finalize.BYTES_PER_LDG t = BYTES_PER_LDG_ /\
  BYTES_PER_LDG_ <> 0 /\ sizeof compute_t_ <> 0 /\
  Finalize.COLS t = HIDDEN_SIZE_ * sizeof compute_t_ / BYTES_PER_LDG_ /\
  Finalize.COLS t * BYTES_PER_LDG_ = HIDDEN_SIZE_ * sizeof compute_t_ /\
  Finalize.COLS t mod 32 = 0 /\
  Finalize.CTAS t = Finalize.COLS t / 32.
Proof.
  intros HH HB Hc Hok. open_finalize Hok.
  typed_facts. resolve_types.
  cbn [Finalize.BYTES_PER_LDG Finalize.COLS Finalize.CTAS].
  assert (Hx : (HIDDEN_SIZE_ * sizeof compute_t_) mod 18446744073709551616
               = HIDDEN_SIZE_ * sizeof compute_t_).
  { apply Z.mod_small. unfold uint32 in *. nia. }
  rewrite Hx in *.
  pose proof (Z.mul_div_le (HIDDEN_SIZE_ * sizeof compute_t_) BYTES_PER_LDG_).
  unfold uint32 in *. flatten. repeat split; try assumption; try lia.
Qed.

(** What an accepted finalize instantiation says about the rows of a block. *)
Lemma finalize_rows HIDDEN_SIZE_ weight_t_ input_t_ output_t_ compute_t_ index_t_
    THREADS_PER_CTA_ BYTES_PER_LDG_ t :
  uint32 THREADS_PER_CTA_ ->
  Finalize.Kernel_traits_finalize HIDDEN_SIZE_ weight_t_ input_t_ output_t_
    compute_t_ index_t_ THREADS_PER_CTA_ BYTES_PER_LDG_ = Ok t ->
  Finalize.ROWS_PER_CTA t = THREADS_PER_CTA_ / 32 /\
  Finalize.ROWS_PER_CTA t <= 32 /\
  THREADS_PER_CTA_ = Finalize.ROWS_PER_CTA t * 32 /\
  Base.THREADS_PER_CTA (Finalize.base t) = THREADS_PER_CTA_.
Proof.
  intros HT Hok. open_finalize Hok. typed_facts.
  cbn [Finalize.ROWS_PER_CTA Finalize.base Base.THREADS_PER_CTA
       Base.Kernel_traits_base cval uint32_t].
  resolve_types. promote_int (cval x0). resolve_types.
  unfold uint32 in *. repeat split; lia.
Qed.

(** With more than 32 rows the first assertion of the template fails. *)
Lemma finalize_rows_rejected HIDDEN_SIZE_ weight_t_ input_t_ output_t_ compute_t_
    index_t_ THREADS_PER_CTA_ BYTES_PER_LDG_ :
  uint32 THREADS_PER_CTA_ -> 32 < THREADS_PER_CTA_ / 32 ->
  Finalize.Kernel_traits_finalize HIDDEN_SIZE_ weight_t_ input_t_ output_t_
    compute_t_ index_t_ THREADS_PER_CTA_ BYTES_PER_LDG_
  = Rejected (Static_assert_failed rows_fit_a_warp).
Proof.
  intros HT Hrows. unfold Finalize.Kernel_traits_finalize. cbv zeta.
  cbn [Base.Kernel_traits_base Base.THREADS_PER_CTA Base.THREADS_PER_WARP
       cval uint32_t int].
  destruct (div_total (enumerator THREADS_PER_CTA_) (enumerator 32))
    as (r & Hr & Hv); [held_tac | held_tac | discriminate |].
  cbn [cval enumerator] in Hv.
  rewrite Hr. unfold enum at 1. cbn [bind].
  rewrite le_static_cast_int.
  - destruct (Z.leb_spec (cval r) 32) as [Hle|_]; [lia | reflexivity].
  - unfold nonneg_int, uint32 in *. rewrite Hv. dlia.
  - unfold nonneg_int. lia.
Qed.

(** ** The finalize resolver *)

(** C6: rows-per-block is threads-per-block / 32 in every accepted finalize
    instantiation and never exceeds 32; more than 32 rows are rejected by the
    first assertion.  With 1024 threads the rows are 32 and the instantiation
    is accepted; with 2048 threads they would be 64 and it is rejected. *)
Theorem finalize_rows_per_cta :
  forall HIDDEN_SIZE_ weight_t_ input_t_ output_t_ compute_t_ index_t_
         THREADS_PER_CTA_ BYTES_PER_LDG_,
    uint32 THREADS_PER_CTA_ ->
    (forall t,
        Finalize.Kernel_traits_finalize HIDDEN_SIZE_ weight_t_ input_t_ output_t_
          compute_t_ index_t_ THREADS_PER_CTA_ BYTES_PER_LDG_ = Ok t ->
        Finalize.ROWS_PER_CTA t = THREADS_PER_CTA_ / 32 /\
        Finalize.ROWS_PER_CTA t <= 32) /\
    (32 < THREADS_PER_CTA_ / 32 ->
     Finalize.Kernel_traits_finalize HIDDEN_SIZE_ weight_t_ input_t_ output_t_
       compute_t_ index_t_ THREADS_PER_CTA_ BYTES_PER_LDG_
     = Rejected (Static_assert_failed rows_fit_a_warp)) /\
    (exists t,
        Finalize.Kernel_traits_finalize 1024 two_byte two_byte two_byte four_byte
          four_byte 1024 4 = Ok t /\
        Finalize.ROWS_PER_CTA t = 32) /\
    Finalize.Kernel_traits_finalize HIDDEN_SIZE_ weight_t_ input_t_ output_t_
      compute_t_ index_t_ 2048 BYTES_PER_LDG_
    = Rejected (Static_assert_failed rows_fit_a_warp).
Proof.
  intros HIDDEN_SIZE_ weight_t_ input_t_ output_t_ compute_t_ index_t_
         THREADS_PER_CTA_ BYTES_PER_LDG_ HT.
  split; [|split; [|split]].
  - intros t Hok.
    destruct (finalize_rows _ _ _ _ _ _ _ _ _ HT Hok) as (H1 & H2 & _).
    now split.
  - now apply finalize_rows_rejected.
  - run. reflexivity.
  - apply finalize_rows_rejected; [unfold uint32; lia | reflexivity].
Qed.

(** C6 at 1024 threads. *)
Lemma finalize_rows_per_cta_witness :
  uint32 1024 /\
  exists t,
    Finalize.Kernel_traits_finalize 1024 two_byte two_byte two_byte four_byte
      four_byte 1024 4 = Ok t /\
    Finalize.ROWS_PER_CTA t = 1024 / 32 /\ Finalize.ROWS_PER_CTA t <= 32.
Proof.
  assert (H : uint32 1024) by (unfold uint32; lia).
  split; [exact H|].
  run.
  apply (proj1 (finalize_rows_per_cta 1024 two_byte two_byte two_byte four_byte
                  four_byte 1024 4 H)).
  vm_compute. reflexivity.
Defined.

(** C7: in every accepted finalize instantiation the division giving the
    columns, hidden-size * compute-element-size / bytes-per-load, and the
    division of the columns by 32 giving the block count leave no remainder;
    an instantiation with a remainder in either is rejected. *)
Theorem finalize_cols_exact :
  forall HIDDEN_SIZE_ weight_t_ input_t_ output_t_ compute_t_ index_t_
         THREADS_PER_CTA_ BYTES_PER_LDG_,
    uint32 HIDDEN_SIZE_ -> uint32 BYTES_PER_LDG_ -> uint32 (sizeof compute_t_) ->
    (forall t,
        Finalize.Kernel_traits_finalize HIDDEN_SIZE_ weight_t_ input_t_ output_t_
          compute_t_ index_t_ THREADS_PER_CTA_ BYTES_PER_LDG_ = Ok t ->
        BYTES_PER_LDG_ <> 0 /\
        Finalize.COLS t = HIDDEN_SIZE_ * sizeof compute_t_ / BYTES_PER_LDG_ /\
        (HIDDEN_SIZE_ * sizeof compute_t_) mod BYTES_PER_LDG_ = 0 /\
        Finalize.CTAS t = Finalize.COLS t / 32 /\
        Finalize.COLS t mod 32 = 0) /\
    ((HIDDEN_SIZE_ * sizeof compute_t_) mod BYTES_PER_LDG_ <> 0 \/
     (HIDDEN_SIZE_ * sizeof compute_t_ / BYTES_PER_LDG_) mod 32 <> 0 ->
     accepted (Finalize.Kernel_traits_finalize HIDDEN_SIZE_ weight_t_ input_t_
                 output_t_ compute_t_ index_t_ THREADS_PER_CTA_ BYTES_PER_LDG_)
     = false).
Proof.
  intros HIDDEN_SIZE_ weight_t_ input_t_ output_t_ compute_t_ index_t_
         THREADS_PER_CTA_ BYTES_PER_LDG_ HH HB Hc.
  assert (Hexact : forall t,
    Finalize.Kernel_traits_finalize HIDDEN_SIZE_ weight_t_ input_t_ output_t_
      compute_t_ index_t_ THREADS_PER_CTA_ BYTES_PER_LDG_ = Ok t ->
    BYTES_PER_LDG_ <> 0 /\
    Finalize.COLS t = HIDDEN_SIZE_ * sizeof compute_t_ / BYTES_PER_LDG_ /\
    (HIDDEN_SIZE_ * sizeof compute_t_) mod BYTES_PER_LDG_ = 0 /\
    Finalize.CTAS t = Finalize.COLS t / 32 /\
    Finalize.COLS t mod 32 = 0).
  { intros t Hok.
    destruct (finalize_cols _ _ _ _ _ _ _ _ _ HH HB Hc Hok)
      as (_ & Hnz & _ & Hcols & Hmul & Hwarp & Hctas).
    repeat split; try assumption.
    rewrite <- Hmul. now apply Z.mod_mul. }
  split; [exact Hexact|].
  intros Hrem.
  destruct (Finalize.Kernel_traits_finalize _ _ _ _ _ _ _ _) as [t|d] eqn:Hok;
    [exfalso | reflexivity].
  destruct (Hexact t eq_refl) as (_ & Hcols & Hmod & _ & Hwarp).
  rewrite Hcols in Hwarp. tauto.
Qed.

(** C7 at hidden size 1024, a 4-byte compute type and 4 bytes per load. *)
Lemma finalize_cols_exact_witness :
  exists t,
    Finalize.Kernel_traits_finalize 1024 two_byte two_byte two_byte four_byte
      four_byte 1024 4 = Ok t /\
    Finalize.COLS t = 1024 * 4 / 4 /\ (1024 * 4) mod 4 = 0 /\
    Finalize.CTAS t = Finalize.COLS t / 32 /\ Finalize.COLS t mod 32 = 0.
Proof.
  run.
  apply (proj1 (finalize_cols_exact 1024 two_byte two_byte two_byte four_byte
                  four_byte 1024 4
                  ltac:(unfold uint32; lia) ltac:(unfold uint32; lia)
                  ltac:(unfold uint32; cbn; lia))).
  vm_compute. reflexivity.
Defined.

(** A product of at least 32 columns by a bytes-per-load that needs an
    unsigned int wraps around, or overflows a long. *)
Lemma mul_columns_fit (cols b x : Z) (p : cint) :
  uint64 cols -> uint32 b -> 32 <= cols -> 0 <= x <= 18446744073709551615 ->
  cols * b = x ->
  held p -> ctype p = common (promoted cols) (promoted b) -> cval p = x ->
  nonneg_int b.
Proof.
  intros Hcols Hb H32 Hx Hmul Hh Ht Hv.
  pose proof (held_max p Hh) as Hmax. rewrite Ht, Hv in Hmax.
  destruct (promoted_cases b) as [(Hb' & _) | [(Hb' & Eb) | [(Hb' & _) | (Hb' & _)]]];
    [ unfold uint64, uint32 in *; lia
    | unfold nonneg_int, uint32 in *; lia
    |
    | unfold uint32 in *; lia
    | unfold uint32 in *; lia ].
  exfalso. rewrite Eb in Hmax.
  destruct (promoted_cases cols Hcols)
    as [(Hn & En) | [(Hn & En) | [(Hn & En) | (Hn & En)]]];
    rewrite En in Hmax; cbn in Hmax; unfold uint32, uint64 in *; nia.
Qed.

Lemma multiple_of_warp_at_least (cols b x : Z) :
  0 <= cols -> 0 <= b -> 0 < x -> cols * b = x -> cols mod 32 = 0 -> 32 <= cols.
Proof. intros. assert (0 < cols) by nia. dlia. Qed.

(** A bytes-per-load that does not fit an int is refused when there is a
    hidden vector to load. *)
Lemma finalize_ldg_fits_int HIDDEN_SIZE_ weight_t_ input_t_ output_t_ compute_t_
    index_t_ THREADS_PER_CTA_ BYTES_PER_LDG_ t :
  uint32 HIDDEN_SIZE_ -> 0 < HIDDEN_SIZE_ -> uint32 BYTES_PER_LDG_ ->
  uint32 (sizeof compute_t_) ->
  Finalize.Kernel_traits_finalize HIDDEN_SIZE_ weight_t_ input_t_ output_t_
    compute_t_ index_t_ THREADS_PER_CTA_ BYTES_PER_LDG_ = Ok t ->
  nonneg_int BYTES_PER_LDG_.
Proof.
  intros HH Hpos HB Hc Hok.
  destruct (finalize_cols _ _ _ _ _ _ _ _ _ HH HB Hc Hok)
    as (_ & Hnz & Hcnz & Hcols & Hmul & Hwarp & _).
  assert (Hx : 0 < HIDDEN_SIZE_ * sizeof compute_t_ <= 18446744073709551615).
  { clear - HH Hpos Hc Hcnz. unfold uint32 in *. nia. }
  open_finalize Hok. typed_facts. resolve_types.
  cbn [Finalize.COLS] in *.
  rewrite (Z.mod_small (HIDDEN_SIZE_ * sizeof compute_t_)) in * by lia.
  match goal with
  | Ht : ctype ?p = common (promoted (cval ?c)) (promoted BYTES_PER_LDG_) |- _ =>
      apply (mul_columns_fit (cval c) BYTES_PER_LDG_
               (HIDDEN_SIZE_ * sizeof compute_t_) p);
      [ in_range | assumption | | lia | exact Hmul | assumption | exact Ht
      | congruence ]
  end.
  apply (multiple_of_warp_at_least _ BYTES_PER_LDG_ (HIDDEN_SIZE_ * sizeof compute_t_));
    first [ assumption | unfold uint32 in *; lia ].
Qed.

(** C8: in an accepted finalize instantiation the threads of the base and
    the bytes of a load are the arguments, the transpose region is
    threads-per-block * bytes-per-load, the output region 32 * bytes-per-load,
    and the shared memory of a block twice the one plus twice the other. *)
Theorem finalize_smem_bytes :
  forall HIDDEN_SIZE_ weight_t_ input_t_ output_t_ compute_t_ index_t_
         THREADS_PER_CTA_ BYTES_PER_LDG_ t,
    uint32 HIDDEN_SIZE_ -> 0 < HIDDEN_SIZE_ -> uint32 THREADS_PER_CTA_ ->
    uint32 BYTES_PER_LDG_ -> uint32 (sizeof compute_t_) ->
    Finalize.Kernel_traits_finalize HIDDEN_SIZE_ weight_t_ input_t_ output_t_
      compute_t_ index_t_ THREADS_PER_CTA_ BYTES_PER_LDG_ = Ok t ->
    Base.THREADS_PER_CTA (Finalize.base t) = THREADS_PER_CTA_ /\
    Finalize.BYTES_PER_LDG t = BYTES_PER_LDG_ /\
    Finalize.SMEM_BYTES_TRANSPOSE t = THREADS_PER_CTA_ * BYTES_PER_LDG_ /\
    Finalize.SMEM_BYTES_OUTPUT t = 32 * BYTES_PER_LDG_ /\
    Finalize.SMEM_BYTES_PER_CTA t
    = 2 * (THREADS_PER_CTA_ * BYTES_PER_LDG_) + 2 * (32 * BYTES_PER_LDG_).
Proof.
  intros HIDDEN_SIZE_ weight_t_ input_t_ output_t_ compute_t_ index_t_
         THREADS_PER_CTA_ BYTES_PER_LDG_ t HH Hpos HT HB Hc Hok.
  pose proof (finalize_ldg_fits_int _ _ _ _ _ _ _ _ _ HH Hpos HB Hc Hok) as HBi.
  destruct (finalize_rows _ _ _ _ _ _ _ _ _ HT Hok) as (_ & Hrows & Hthreads & _).
  open_finalize Hok. typed_facts.
  cbn [Finalize.SMEM_BYTES_TRANSPOSE Finalize.SMEM_BYTES_OUTPUT
       Finalize.SMEM_BYTES_PER_CTA Finalize.BYTES_PER_LDG Finalize.base
       Finalize.ROWS_PER_CTA Base.THREADS_PER_CTA Base.Kernel_traits_base
       cval uint32_t] in *.
  promote_int BYTES_PER_LDG_.
  assert (HTi : nonneg_int THREADS_PER_CTA_) by (unfold nonneg_int, uint32 in *; lia).
  promote_int THREADS_PER_CTA_.
  resolve_types.
  match goal with
  | |- _ /\ _ /\ cval ?a = _ /\ cval ?b = _ /\ _ =>
      promote_int (cval a); promote_int (cval b)
  end.
  resolve_types.
  repeat split; try assumption; try reflexivity; lia.
Qed.

(** C8 at 1024 threads and 4 bytes per load: 8448 bytes. *)
Lemma finalize_smem_bytes_witness :
  exists t,
    Finalize.Kernel_traits_finalize 1024 two_byte two_byte two_byte four_byte
      four_byte 1024 4 = Ok t /\
    Base.THREADS_PER_CTA (Finalize.base t) = 1024 /\
    Finalize.BYTES_PER_LDG t = 4 /\
    Finalize.SMEM_BYTES_TRANSPOSE t = 4096 /\
    Finalize.SMEM_BYTES_OUTPUT t = 128 /\
    Finalize.SMEM_BYTES_PER_CTA t = 8448.
Proof.
  run.
  apply (finalize_smem_bytes 1024 two_byte two_byte two_byte four_byte
           four_byte 1024 4 _
           ltac:(unfold uint32; lia) ltac:(lia) ltac:(unfold uint32; lia)
           ltac:(unfold uint32; lia) ltac:(unfold uint32; cbn; lia)).
  vm_compute. reflexivity.
Defined.

(** The four-byte assertion holds whatever the bytes-per-load argument is:
    it measures the enumeration type of [BYTES_PER_LDG], not its value. *)
Lemma four_byte_ldg_never_fails (BYTES_PER_LDG_ : Z) :
  uint32 BYTES_PER_LDG_ ->
  CInt.eq (size_t (sizeof_enum BYTES_PER_LDG_)) (int 4) = true.
Proof.
  unfold uint32. intros HB.
  assert (E : sizeof_enum BYTES_PER_LDG_ = 4).
  { unfold sizeof_enum.
    destruct (representable Int BYTES_PER_LDG_) eqn:E1; [reflexivity|].
    replace (representable UInt BYTES_PER_LDG_) with true; [reflexivity|].
    symmetry. apply representable_spec. cbn. lia. }
  rewrite E. reflexivity.
Qed.

(** C1: the finalize resolver is meant to refuse every bytes-per-load other
    than 4.  It does not: with an 8-byte compute type and 8 bytes per load the
    instantiation is accepted. *)
Theorem finalize_accepts_eight_byte_ldg :
  exists t,
    Finalize.Kernel_traits_finalize 1024 two_byte two_byte two_byte eight_byte
      four_byte 1024 8 = Ok t /\
    Finalize.BYTES_PER_LDG t = 8 /\
    sizeof (Base.compute_t (Finalize.base t)) = 8 /\
    Finalize.ELTS_PER_LDG t = 1 /\
    Finalize.COLS t = 1024 /\
    Finalize.CTAS t = 32.
Proof. run. vm_compute. repeat split; reflexivity. Qed.

Lemma add_enumerators (a b : Z) :
  nonneg_int a -> nonneg_int b -> nonneg_int (a + b) ->
  add (enumerator a) (enumerator b) = Ok (mk Int (a + b)).
Proof.
  intros Ha Hb Hab. unfold add, binop. cbn [ctype cval enumerator].
  rewrite !promoted_int by assumption. rewrite common_same.
  unfold nonneg_int in *.
  rewrite !wrap_held by (apply representable_spec; cbn; lia).
  unfold in_type. cbn [is_signed].
  replace (representable Int (a + b)) with true; [reflexivity|].
  symmetry. apply representable_spec. cbn. lia.
Qed.

(** Runs the next step of an instantiation when its arguments are concrete. *)
Ltac eval_step :=
  lazymatch goal with
  | |- bind ?e ?k = _ =>
      let v := eval vm_compute in e in
      lazymatch v with
      | Ok ?a =>
          replace e with (@Ok _ a) by (vm_compute; reflexivity); cbn [bind]
      end
  end.

(** Runs a main instantiation whose collaborators answer as [HT], [HR] and
    [HS] say. *)
Ltac run_main HT HR HS :=
  unfold Main.Kernel_traits; cbv zeta;
  cbn [Base.Kernel_traits_base Base.input_t Base.weight_t Base.output_t
       Base.compute_t];
  eexists; split;
  [ repeat eval_step;
    rewrite HT; cbn [Main.instantiate bind];
    rewrite HR; cbn [Main.instantiate bind];
    unfold enum at 1;
    rewrite add_enumerators by (unfold nonneg_int in *; lia);
    cbn [bind cval];
    repeat eval_step;
    rewrite HS; cbn [Main.instantiate bind];
    reflexivity
  | cbn [Main.ELTS_PER_LDG Main.VEC_COLS Main.THREADS_PER_ROW Main.LDGS
         Main.CTAS_PER_ROW Main.HIDDEN_SIZE Main.BYTES_PER_ROW
         Main.BYTES_PER_ROW_PER_CTA Main.VEC_COLS_PER_LDG Main.BYTES_PER_LDG] ].

(** ** Operands of at most 32 bits *)

(** A 32-bit value is promoted to int or to unsigned int. *)
Lemma narrow_enumerator (v : Z) : uint32 v -> rank (ctype (enumerator v)) <= 1.
Proof.
  intros Hv. cbn [ctype enumerator].
  destruct (promoted_cases v ltac:(in_range))
    as [(_ & E) | [(_ & E) | [(Hb & _) | (Hb & _)]]];
    [ rewrite E; cbn; lia | rewrite E; cbn; lia
    | unfold uint32 in *; lia | unfold uint32 in *; lia ].
Qed.

(** The product of two operands of type int or unsigned int: it is the
    mathematical product modulo 2^32, exact when that fits 32 bits; with two
    int operands an accepted product fits an int. *)
Lemma mul_narrow (a b r : cint) :
  held a -> held b -> rank (ctype a) <= 1 -> rank (ctype b) <= 1 ->
  mul a b = Ok r ->
  held r /\ uint32 (cval r) /\
  cval r = (cval a * cval b) mod 4294967296 /\
  (cval a * cval b <= 4294967295 -> cval r = cval a * cval b) /\
  (ctype a = Int -> ctype b = Int -> cval a * cval b <= 2147483647).
Proof.
  intros Ha Hb Hra Hrb Hmul.
  destruct (mul_held a b r Ha Hb Hmul) as (Hh & Ht & Hr & Hle & Hs & Hu & He).
  destruct Ha as [Ha0 _], Hb as [Hb0 _].
  destruct (ctype a), (ctype b); cbn in Hra, Hrb; try lia;
    cbn in Ht, Hr, Hs, Hu, He; unfold uint32;
    repeat split;
    first [ assumption
          | exact (proj2 Hh)
          | lia
          | rewrite Hs by reflexivity; symmetry; apply Z.mod_small; nia
          | apply Hu; reflexivity
          | intros; apply Hs; reflexivity
          | intros; apply He; lia
          | intros; discriminate
          | intros _ _; rewrite <- Hs by reflexivity; lia ].
Qed.

(** ** The main resolver *)

Ltac open_main H :=
  unfold Main.Kernel_traits in H; cbv zeta in H;
  cbn [Base.Kernel_traits_base Base.input_t Base.weight_t Base.output_t
       Base.compute_t cval uint32_t int] in H;
  read_back.

Section MainResolver.

Variable TypeToVec2 : elt_type -> option elt_type.
Variable Reducer_SMEM_BYTES : elt_type -> Z -> Z -> Z -> option Z.
Variable Stats_SMEM_BYTES : elt_type -> Z -> Z -> Z -> option Z.

(** C4: an accepted main instantiation with more than one warp per row has
    one block per row, and an instantiation with more than one of both is
    rejected. *)
Theorem main_warps_m_excludes_ctas_per_row :
  forall weight_t_ input_t_ output_t_ compute_t_ index_t_
         HIDDEN_SIZE_ CTAS_PER_ROW_ WARPS_M_ WARPS_N_ BYTES_PER_LDG_,
    uint32 CTAS_PER_ROW_ -> uint32 WARPS_M_ ->
    (forall t,
        Main.Kernel_traits TypeToVec2 Reducer_SMEM_BYTES Stats_SMEM_BYTES
          weight_t_ input_t_ output_t_ compute_t_ index_t_
          HIDDEN_SIZE_ CTAS_PER_ROW_ WARPS_M_ WARPS_N_ BYTES_PER_LDG_ = Ok t ->
        Main.WARPS_M t = WARPS_M_ /\ Main.CTAS_PER_ROW t = CTAS_PER_ROW_ /\
        (1 < Main.WARPS_M t -> Main.CTAS_PER_ROW t = 1)) /\
    (1 < WARPS_M_ -> 1 < CTAS_PER_ROW_ ->
     accepted (Main.Kernel_traits TypeToVec2 Reducer_SMEM_BYTES Stats_SMEM_BYTES
                 weight_t_ input_t_ output_t_ compute_t_ index_t_
                 HIDDEN_SIZE_ CTAS_PER_ROW_ WARPS_M_ WARPS_N_ BYTES_PER_LDG_)
     = false).
Proof.
  intros weight_t_ input_t_ output_t_ compute_t_ index_t_
         HIDDEN_SIZE_ CTAS_PER_ROW_ WARPS_M_ WARPS_N_ BYTES_PER_LDG_ HC HM.
  assert (Hinv : forall t,
    Main.Kernel_traits TypeToVec2 Reducer_SMEM_BYTES Stats_SMEM_BYTES
      weight_t_ input_t_ output_t_ compute_t_ index_t_
      HIDDEN_SIZE_ CTAS_PER_ROW_ WARPS_M_ WARPS_N_ BYTES_PER_LDG_ = Ok t ->
    Main.WARPS_M t = WARPS_M_ /\ Main.CTAS_PER_ROW t = CTAS_PER_ROW_ /\
    (1 < Main.WARPS_M t -> Main.CTAS_PER_ROW t = 1)).
  { intros t Hok. open_main Hok. subst. cbn [cval uint32_t] in *.
    cbn [Main.WARPS_M Main.CTAS_PER_ROW].
    match goal with
    | H : (_ || _) = true |- _ =>
        rewrite !eq_held in H by held_tac; cbn [cval enumerator int] in H;
        apply orb_true_iff in H; rewrite !Z.eqb_eq in H
    end.
    lia. }
  split; [exact Hinv|].
  intros HM1 HC1.
  destruct (Main.Kernel_traits _ _ _ _ _ _ _ _ _ _ _ _ _) as [t|d] eqn:Hok;
    [exfalso | reflexivity].
  destruct (Hinv t eq_refl) as (-> & -> & Himp). lia.
Qed.

(** C10: in an accepted main instantiation the input element is at least as
    large as the output element and as the weight element; an instantiation
    with a smaller input element is rejected. *)
Theorem main_input_size_dominates :
  forall weight_t_ input_t_ output_t_ compute_t_ index_t_
         HIDDEN_SIZE_ CTAS_PER_ROW_ WARPS_M_ WARPS_N_ BYTES_PER_LDG_,
    uint64 (sizeof weight_t_) -> uint64 (sizeof input_t_) ->
    uint64 (sizeof output_t_) ->
    (forall t,
        Main.Kernel_traits TypeToVec2 Reducer_SMEM_BYTES Stats_SMEM_BYTES
          weight_t_ input_t_ output_t_ compute_t_ index_t_
          HIDDEN_SIZE_ CTAS_PER_ROW_ WARPS_M_ WARPS_N_ BYTES_PER_LDG_ = Ok t ->
        sizeof (Base.input_t (Main.base t)) >= sizeof (Base.output_t (Main.base t)) /\
        sizeof (Base.input_t (Main.base t)) >= sizeof (Base.weight_t (Main.base t)) /\
        Base.input_t (Main.base t) = input_t_ /\
        Base.output_t (Main.base t) = output_t_ /\
        Base.weight_t (Main.base t) = weight_t_) /\
    (sizeof input_t_ < sizeof output_t_ \/ sizeof input_t_ < sizeof weight_t_ ->
     accepted (Main.Kernel_traits TypeToVec2 Reducer_SMEM_BYTES Stats_SMEM_BYTES
                 weight_t_ input_t_ output_t_ compute_t_ index_t_
                 HIDDEN_SIZE_ CTAS_PER_ROW_ WARPS_M_ WARPS_N_ BYTES_PER_LDG_)
     = false).
Proof.
  intros weight_t_ input_t_ output_t_ compute_t_ index_t_
         HIDDEN_SIZE_ CTAS_PER_ROW_ WARPS_M_ WARPS_N_ BYTES_PER_LDG_ Hw Hi Ho.
  assert (Hinv : forall t,
    Main.Kernel_traits TypeToVec2 Reducer_SMEM_BYTES Stats_SMEM_BYTES
      weight_t_ input_t_ output_t_ compute_t_ index_t_
      HIDDEN_SIZE_ CTAS_PER_ROW_ WARPS_M_ WARPS_N_ BYTES_PER_LDG_ = Ok t ->
    sizeof (Base.input_t (Main.base t)) >= sizeof (Base.output_t (Main.base t)) /\
    sizeof (Base.input_t (Main.base t)) >= sizeof (Base.weight_t (Main.base t)) /\
    Base.input_t (Main.base t) = input_t_ /\
    Base.output_t (Main.base t) = output_t_ /\
    Base.weight_t (Main.base t) = weight_t_).
  { intros t Hok. open_main Hok. typed_facts. resolve_types.
    cbn [Main.base Base.input_t Base.output_t Base.weight_t
         Base.Kernel_traits_base].
    repeat split; lia. }
  split; [exact Hinv|].
  intros Hlt.
  destruct (Main.Kernel_traits _ _ _ _ _ _ _ _ _ _ _ _ _) as [t|d] eqn:Hok;
    [exfalso | reflexivity].
  destruct (Hinv t eq_refl) as (H1 & H2 & E1 & E2 & E3).
  rewrite E1, ?E2, ?E3 in *. lia.
Qed.

(** What an accepted main instantiation says about the loads of a thread. *)
Lemma main_loads weight_t_ input_t_ output_t_ compute_t_ index_t_
    HIDDEN_SIZE_ CTAS_PER_ROW_ WARPS_M_ WARPS_N_ BYTES_PER_LDG_ t :
  uint32 HIDDEN_SIZE_ -> uint32 BYTES_PER_LDG_ -> nonneg_int CTAS_PER_ROW_ ->
  nonneg_int (WARPS_N_ * 32) -> uint64 (sizeof input_t_) ->
  Main.Kernel_traits TypeToVec2 Reducer_SMEM_BYTES Stats_SMEM_BYTES
    weight_t_ input_t_ output_t_ compute_t_ index_t_
    HIDDEN_SIZE_ CTAS_PER_ROW_ WARPS_M_ WARPS_N_ BYTES_PER_LDG_ = Ok t ->
  Main.HIDDEN_SIZE t = HIDDEN_SIZE_ /\
  Main.COLS t = HIDDEN_SIZE_ /\
  Main.BYTES_PER_LDG t = BYTES_PER_LDG_ /\
  Main.CTAS_PER_ROW t = CTAS_PER_ROW_ /\
  Main.THREADS_PER_ROW t = WARPS_N_ * 32 /\
  sizeof input_t_ <> 0 /\
  Main.ELTS_PER_LDG t = BYTES_PER_LDG_ / sizeof input_t_ /\
  Main.ELTS_PER_LDG t <> 0 /\
  Main.VEC_COLS_PER_LDG t = CTAS_PER_ROW_ * (WARPS_N_ * 32) /\
  Main.VEC_COLS_PER_LDG t <> 0 /\
  Main.VEC_COLS t = HIDDEN_SIZE_ / Main.ELTS_PER_LDG t /\
  Main.LDGS t = Main.VEC_COLS t / Main.VEC_COLS_PER_LDG t /\
  Main.LDGS t * Main.VEC_COLS_PER_LDG t = Main.VEC_COLS t.
Proof.
  intros HH HB HC HN Hi Hok. open_main Hok. typed_facts.
  cbn [Main.HIDDEN_SIZE Main.COLS Main.BYTES_PER_LDG Main.CTAS_PER_ROW
       Main.THREADS_PER_ROW Main.ELTS_PER_LDG Main.VEC_COLS_PER_LDG
       Main.VEC_COLS Main.LDGS].
  assert (HNi : nonneg_int WARPS_N_) by (unfold nonneg_int in *; lia).
  promote_int WARPS_N_. promote_int CTAS_PER_ROW_.
  resolve_types.
  match goal with
  | |- _ /\ _ /\ _ /\ _ /\ cval ?threads = _ /\ _ => promote_int (cval threads)
  end.
  resolve_types. unfold uint32, uint64, nonneg_int in *.
  repeat split; try assumption; try reflexivity; try lia.
Qed.

(** What an accepted main instantiation says about the bytes of a row. *)
Lemma main_row_bytes weight_t_ input_t_ output_t_ compute_t_ index_t_
    HIDDEN_SIZE_ CTAS_PER_ROW_ WARPS_M_ WARPS_N_ BYTES_PER_LDG_ t :
  uint32 HIDDEN_SIZE_ -> nonneg_int BYTES_PER_LDG_ ->
  nonneg_int (WARPS_N_ * 32) -> uint32 (sizeof input_t_) ->
  Main.Kernel_traits TypeToVec2 Reducer_SMEM_BYTES Stats_SMEM_BYTES
    weight_t_ input_t_ output_t_ compute_t_ index_t_
    HIDDEN_SIZE_ CTAS_PER_ROW_ WARPS_M_ WARPS_N_ BYTES_PER_LDG_ = Ok t ->
  Main.BYTES_PER_ROW t = HIDDEN_SIZE_ * sizeof input_t_ /\
  Main.BYTES_PER_ROW_PER_CTA t = WARPS_N_ * 32 * BYTES_PER_LDG_.
Proof.
  intros HH HB HN Hi Hok. open_main Hok. typed_facts.
  cbn [Main.BYTES_PER_ROW Main.BYTES_PER_ROW_PER_CTA].
  assert (HNi : nonneg_int WARPS_N_) by (unfold nonneg_int in *; lia).
  promote_int WARPS_N_. promote_int BYTES_PER_LDG_.
  resolve_types.
  rewrite (Z.mod_small (WARPS_N_ * 32)) in * by (unfold nonneg_int in *; lia).
  match goal with
  | H : cval ?threads = WARPS_N_ * 32 |- _ => promote_int (cval threads)
  end.
  resolve_types.
  rewrite (Z.mod_small (HIDDEN_SIZE_ * sizeof input_t_)) in *
    by (unfold uint32 in *; nia).
  split; congruence.
Qed.


(** The main instantiation of hidden size 1028 with 2-byte elements, 16
    bytes per load, one block per row and four warps across the row: it is
    accepted although 1028 is not a multiple of the 8 elements of a load. *)
Lemma main_hidden_1028_accepted index_t_ rt d f :
  TypeToVec2 four_byte = Some rt ->
  Reducer_SMEM_BYTES rt 1 1 4 = Some d -> 0 <= d -> d + 4112 <= 2147483647 ->
  Stats_SMEM_BYTES four_byte 1 1 4 = Some f ->
  exists t,
    Main.Kernel_traits TypeToVec2 Reducer_SMEM_BYTES Stats_SMEM_BYTES
      two_byte two_byte two_byte four_byte index_t_ 1028 1 1 4 16 = Ok t /\
    Main.HIDDEN_SIZE t = 1028 /\
    Main.ELTS_PER_LDG t = 8 /\
    Main.VEC_COLS t = 128 /\
    Main.LDGS t = 1 /\
    Main.CTAS_PER_ROW t = 1 /\
    Main.THREADS_PER_ROW t = 128 /\
    Main.BYTES_PER_ROW_PER_CTA t = 2048 /\
    Main.BYTES_PER_ROW t = 2056.
Proof.
  intros HT HR Hd0 Hd HS. run_main HT HR HS. repeat split; reflexivity.
Qed.


(** C3, as the code has it: in an accepted main instantiation the hidden
    size, bytes per load, blocks per row, threads per row and elements per
    load are those of the arguments, the bytes of a row are hidden-size *
    input-element-size and the bytes of a row and block warps * 32 *
    bytes-per-load; the consistency check that is commented out holds when
    the bytes of a load are a multiple of the input element size and the
    hidden size is a multiple of the elements of a load; the assertions that
    are enforced do not ask for either. *)
Theorem main_row_bytes_check :
  forall weight_t_ input_t_ output_t_ compute_t_ index_t_
         HIDDEN_SIZE_ CTAS_PER_ROW_ WARPS_M_ WARPS_N_ BYTES_PER_LDG_ t,
    uint32 HIDDEN_SIZE_ -> nonneg_int BYTES_PER_LDG_ ->
    nonneg_int CTAS_PER_ROW_ -> nonneg_int (WARPS_N_ * 32) ->
    uint32 (sizeof input_t_) ->
    Main.Kernel_traits TypeToVec2 Reducer_SMEM_BYTES Stats_SMEM_BYTES
      weight_t_ input_t_ output_t_ compute_t_ index_t_
      HIDDEN_SIZE_ CTAS_PER_ROW_ WARPS_M_ WARPS_N_ BYTES_PER_LDG_ = Ok t ->
    Main.HIDDEN_SIZE t = HIDDEN_SIZE_ /\
    Main.BYTES_PER_LDG t = BYTES_PER_LDG_ /\
    Main.CTAS_PER_ROW t = CTAS_PER_ROW_ /\
    Main.THREADS_PER_ROW t = WARPS_N_ * 32 /\
    Main.ELTS_PER_LDG t = BYTES_PER_LDG_ / sizeof input_t_ /\
    Main.BYTES_PER_ROW t = HIDDEN_SIZE_ * sizeof input_t_ /\
    Main.BYTES_PER_ROW_PER_CTA t = WARPS_N_ * 32 * BYTES_PER_LDG_ /\
    (BYTES_PER_LDG_ mod sizeof input_t_ = 0 ->
     HIDDEN_SIZE_ mod (BYTES_PER_LDG_ / sizeof input_t_) = 0 ->
     Main.LDGS t * Main.BYTES_PER_ROW_PER_CTA t * Main.CTAS_PER_ROW t
     = HIDDEN_SIZE_ * sizeof input_t_).
Proof.
  intros weight_t_ input_t_ output_t_ compute_t_ index_t_
         HIDDEN_SIZE_ CTAS_PER_ROW_ WARPS_M_ WARPS_N_ BYTES_PER_LDG_ t
         HH HB HC HN Hi Hok.
  assert (HB' : uint32 BYTES_PER_LDG_) by (unfold uint32, nonneg_int in *; lia).
  assert (Hi' : uint64 (sizeof input_t_)) by (unfold uint32, uint64 in *; lia).
  destruct (main_loads _ _ _ _ _ _ _ _ _ _ _ HH HB' HC HN Hi' Hok)
    as (Hhidden & _ & Hldg & Hctas & Hthreads & Hsz & Helts & Henz & Hper & _
        & Hcols & _ & Htile).
  destruct (main_row_bytes _ _ _ _ _ _ _ _ _ _ _ HH HB HN Hi Hok)
    as (Hrow & Hcta).
  repeat split; try assumption.
  intros Hmod1 Hmod2.
  rewrite Hcta, Hctas.
  rewrite Helts in Henz, Hcols.
  apply Z.div_exact in Hmod1; [|assumption].
  apply Z.div_exact in Hmod2; [|assumption].
  rewrite <- Hcols in Hmod2.
  rewrite Hper in Htile.
  transitivity (Main.VEC_COLS t * BYTES_PER_LDG_).
  - rewrite <- Htile. ring.
  - rewrite Hmod2. rewrite Hmod1 at 1. ring.
Qed.

(** C9: hidden size 1024 with 2-byte input, output and weight elements, a
    4-byte compute element, 16 bytes per load, one block per row, one warp
    per row and four warps across the row is accepted, with 8 elements per
    load, 128 vectorized columns, 128 threads per row and one load per
    thread; with three warps across the row, 96 threads, it is rejected. *)
Theorem main_hidden_1024 :
  forall index_t_ rt d f,
    TypeToVec2 four_byte = Some rt ->
    Reducer_SMEM_BYTES rt 1 1 4 = Some d -> 0 <= d -> d + 4096 <= 2147483647 ->
    Stats_SMEM_BYTES four_byte 1 1 4 = Some f ->
    (exists t,
        Main.Kernel_traits TypeToVec2 Reducer_SMEM_BYTES Stats_SMEM_BYTES
          two_byte two_byte two_byte four_byte index_t_ 1024 1 1 4 16 = Ok t /\
        Main.ELTS_PER_LDG t = 8 /\
        Main.VEC_COLS t = 128 /\
        Main.THREADS_PER_ROW t = 128 /\
        Main.LDGS t = 1) /\
    accepted (Main.Kernel_traits TypeToVec2 Reducer_SMEM_BYTES Stats_SMEM_BYTES
                two_byte two_byte two_byte four_byte index_t_ 1024 1 1 3 16)
    = false.
Proof.
  intros index_t_ rt d f HT HR Hd0 Hd HS. split.
  - run_main HT HR HS. repeat split; reflexivity.
  - destruct (Main.Kernel_traits _ _ _ _ _ _ _ _ _ _ _ _ _) as [t|e] eqn:Hok;
      [exfalso | reflexivity].
    destruct (main_loads two_byte two_byte two_byte four_byte index_t_
                1024 1 1 3 16 t
                ltac:(unfold uint32; lia) ltac:(unfold uint32; lia)
                ltac:(unfold nonneg_int; lia) ltac:(unfold nonneg_int; lia)
                ltac:(unfold uint64; cbn; lia) Hok)
      as (_ & _ & _ & _ & _ & _ & Helts & _ & Hper & _ & Hcols & _ & Htile).
    rewrite Hcols, Helts, Hper in Htile.
    change (1024 / (16 / sizeof two_byte)) with 128 in Htile. lia.
Qed.

End MainResolver.

(** ** The main resolver on concrete arguments *)

Ltac ranges := unfold uint32, uint64, nonneg_int; cbn; lia.


(** C3 as stated fails: for hidden size 1028 the accepted instantiation has
    one load of 2048 bytes per row and block, and a row of 2056 bytes. *)
Lemma main_row_bytes_check_fails :
  exists t,
    Sample.Kernel_traits two_byte two_byte two_byte four_byte four_byte
      1028 1 1 4 16 = Ok t /\
    Main.LDGS t * Main.BYTES_PER_ROW_PER_CTA t * Main.CTAS_PER_ROW t = 2048 /\
    Main.BYTES_PER_ROW t = 2056 /\
    Main.LDGS t * Main.BYTES_PER_ROW_PER_CTA t * Main.CTAS_PER_ROW t
    <> Main.BYTES_PER_ROW t.
Proof.
  destruct (main_hidden_1028_accepted Sample.TypeToVec2
              Sample.Reducer_SMEM_BYTES Sample.Stats_SMEM_BYTES four_byte
              {| sizeof := 8 |} 32 32 eq_refl eq_refl ltac:(lia) ltac:(lia)
              eq_refl)
    as (t & Hok & _ & _ & _ & Hl & Hc & _ & Hb & Hr).
  exists t. split; [exact Hok|].
  rewrite Hl, Hc, Hb, Hr. repeat split; try reflexivity. discriminate.
Qed.



(** C3, as the code has it, at hidden size 1024: a row of 2048 bytes, one
    load of 2048 bytes per row and block. *)
Lemma main_row_bytes_check_witness :
  exists t,
    Sample.Kernel_traits two_byte two_byte two_byte four_byte four_byte
      1024 1 1 4 16 = Ok t /\
    Main.BYTES_PER_ROW t = 2048 /\
    Main.BYTES_PER_ROW_PER_CTA t = 2048 /\
    Main.LDGS t * Main.BYTES_PER_ROW_PER_CTA t * Main.CTAS_PER_ROW t = 2048.
Proof.
  run.
  destruct (main_row_bytes_check Sample.TypeToVec2
              Sample.Reducer_SMEM_BYTES Sample.Stats_SMEM_BYTES
              two_byte two_byte two_byte four_byte four_byte 1024 1 1 4 16 _
              ltac:(ranges) ltac:(ranges) ltac:(ranges) ltac:(ranges)
              ltac:(ranges) ltac:(vm_compute; reflexivity))
    as (_ & _ & _ & _ & _ & Hrow & Hcta & Hcheck).
  split; [exact Hrow|]. split; [exact Hcta|].
  apply Hcheck; reflexivity.
Defined.

(** C4 with two warps per row: one block per row is accepted, two are
    rejected. *)
Lemma main_warps_m_excludes_ctas_per_row_witness :
  (exists t,
      Sample.Kernel_traits two_byte two_byte two_byte four_byte four_byte
        1024 1 2 4 16 = Ok t /\
      (1 < Main.WARPS_M t -> Main.CTAS_PER_ROW t = 1)) /\
  accepted (Sample.Kernel_traits two_byte two_byte two_byte four_byte four_byte
              2048 2 2 4 16) = false.
Proof.
  split.
  - run.
    apply (proj1 (main_warps_m_excludes_ctas_per_row Sample.TypeToVec2
                    Sample.Reducer_SMEM_BYTES Sample.Stats_SMEM_BYTES
                    two_byte two_byte two_byte four_byte four_byte
                    1024 1 2 4 16 ltac:(ranges) ltac:(ranges))).
    vm_compute. reflexivity.
  - apply (proj2 (main_warps_m_excludes_ctas_per_row Sample.TypeToVec2
                    Sample.Reducer_SMEM_BYTES Sample.Stats_SMEM_BYTES
                    two_byte two_byte two_byte four_byte four_byte
                    2048 2 2 4 16 ltac:(ranges) ltac:(ranges))); lia.
Defined.


(** C10 with a 1-byte output element, and with a 1-byte input element. *)
Lemma main_input_size_dominates_witness :
  (exists t,
      Sample.Kernel_traits two_byte two_byte one_byte four_byte four_byte
        1024 1 1 4 16 = Ok t /\
      sizeof (Base.input_t (Main.base t)) >= sizeof (Base.output_t (Main.base t)) /\
      sizeof (Base.input_t (Main.base t)) >= sizeof (Base.weight_t (Main.base t))) /\
  accepted (Sample.Kernel_traits two_byte one_byte two_byte four_byte four_byte
              1024 1 1 4 16) = false.
Proof.
  split.
  - run.
    destruct (proj1 (main_input_size_dominates Sample.TypeToVec2
                       Sample.Reducer_SMEM_BYTES Sample.Stats_SMEM_BYTES
                       two_byte two_byte one_byte four_byte four_byte
                       1024 1 1 4 16 ltac:(ranges) ltac:(ranges) ltac:(ranges))
                    _ ltac:(vm_compute; reflexivity)) as (H1 & H2 & _).
    split; assumption.
  - apply (proj2 (main_input_size_dominates Sample.TypeToVec2
                    Sample.Reducer_SMEM_BYTES Sample.Stats_SMEM_BYTES
                    two_byte one_byte two_byte four_byte four_byte
                    1024 1 1 4 16 ltac:(ranges) ltac:(ranges) ltac:(ranges))).
    cbn. lia.
Defined.

(** C9 with the collaborators of the examples. *)
Lemma main_hidden_1024_witness :
  (exists t,
      Sample.Kernel_traits two_byte two_byte two_byte four_byte four_byte
        1024 1 1 4 16 = Ok t /\
      Main.ELTS_PER_LDG t = 8 /\
      Main.VEC_COLS t = 128 /\
      Main.THREADS_PER_ROW t = 128 /\
      Main.LDGS t = 1) /\
  accepted (Sample.Kernel_traits two_byte two_byte two_byte four_byte four_byte
              1024 1 1 3 16) = false.
Proof.
  apply (main_hidden_1024 Sample.TypeToVec2 Sample.Reducer_SMEM_BYTES
           Sample.Stats_SMEM_BYTES four_byte {| sizeof := 8 |} 32 32
           eq_refl eq_refl ltac:(lia) ltac:(lia) eq_refl).
Defined.

(** ** Why an instantiation is rejected *)

(** A rejected sequence was rejected in its first step or, that step
    accepted, in the rest. *)
Lemma bind_Rejected {A B : Type} (e : result A) (k : A -> result B) d :
  bind e k = Rejected d ->
  e = Rejected d \/ exists a, e = Ok a /\ k a = Rejected d.
Proof. destruct e as [a|d']; cbn; [eauto | intros [= ->]; now left]. Qed.

Lemma enum_Rejected (e : result cint) d :
  enum e = Rejected d -> e = Rejected d.
Proof. destruct e as [c|d']; cbn; [discriminate | intros [= ->]; reflexivity]. Qed.

Lemma in_type_Rejected t z d :
  in_type t z = Rejected d -> d = Not_a_constant_expression.
Proof.
  unfold in_type. destruct (is_signed t); [|discriminate].
  destruct (representable t z); [discriminate | now intros [= <-]].
Qed.

Lemma binop_Rejected op a b d :
  binop op a b = Rejected d -> d = Not_a_constant_expression.
Proof. apply in_type_Rejected. Qed.

Lemma divop_Rejected op a b d :
  divop op a b = Rejected d -> d = Not_a_constant_expression.
Proof.
  unfold divop. destruct (_ =? 0); [now intros [= <-] | apply in_type_Rejected].
Qed.

Lemma static_assert_Rejected a b d :
  static_assert a b = Rejected d -> b = false /\ d = Static_assert_failed a.
Proof. destruct b; cbn; [discriminate | now intros [= <-]]. Qed.

Lemma instantiate_Rejected {A : Type} (o : option A) d :
  Main.instantiate o = Rejected d -> o = None /\ d = Collaborator_ill_formed.
Proof. destruct o; cbn; [discriminate | now intros [= <-]]. Qed.

(** Splits a rejected instantiation into the step that was refused. *)
Ltac why_rejected :=
  repeat match goal with
  | H : bind _ _ = Rejected _ |- _ =>
      apply bind_Rejected in H; destruct H as [H | (? & ? & H)]; cbv beta in H
  | H : enum _ = Rejected _ |- _ => apply enum_Rejected in H
  | H : mul _ _ = Rejected _ |- _ => apply binop_Rejected in H
  | H : add _ _ = Rejected _ |- _ => apply binop_Rejected in H
  | H : div _ _ = Rejected _ |- _ => apply divop_Rejected in H
  | H : rem _ _ = Rejected _ |- _ => apply divop_Rejected in H
  | H : static_assert _ _ = Rejected _ |- _ =>
      apply static_assert_Rejected in H; destruct H as [H ?]
  | H : Main.instantiate _ = Rejected _ |- _ =>
      apply instantiate_Rejected in H; destruct H as [H ?]
  end.


(** ** Operations that succeed *)

(** A non-negative value that fits the type is kept as it is. *)
Lemma in_type_exact (t : ity) (z : Z) :
  0 <= z <= max_of t -> in_type t z = Ok (mk t z).
Proof.
  intros Hz. unfold in_type. destruct (is_signed t) eqn:Es.
  - replace (representable t z) with true; [reflexivity|].
    symmetry. apply representable_spec. destruct t; cbn in *; try discriminate; lia.
  - rewrite Z.mod_small; [reflexivity|]. destruct t; cbn in *; try discriminate; lia.
Qed.

(** The usual arithmetic conversions keep the value of operands in range. *)
Lemma operands_held (a b : cint) :
  held a -> held b ->
  wrap (common (ctype a) (ctype b)) (cval a) = cval a /\
  wrap (common (ctype a) (ctype b)) (cval b) = cval b /\
  cval a <= max_of (common (ctype a) (ctype b)).
Proof.
  intros [Ha0 Ha] [Hb0 Hb].
  destruct (representable_common (ctype a) (ctype b) (cval a) Ha0 Ha) as [Ha' _].
  destruct (representable_common (ctype b) (ctype a) (cval b) Hb0 Hb) as [_ Hb'].
  rewrite (wrap_held _ _ Ha'), (wrap_held _ _ Hb').
  apply representable_spec in Ha'. repeat split; lia.
Qed.

(** A product that fits the common type is accepted with its exact value;
    likewise a sum, and a quotient and a remainder by a non-zero divisor. *)
Lemma mul_exact (a b : cint) :
  held a -> held b ->
  cval a * cval b <= max_of (common (ctype a) (ctype b)) ->
  mul a b = Ok (mk (common (ctype a) (ctype b)) (cval a * cval b)).
Proof.
  intros Ha Hb Hmax. destruct (operands_held a b Ha Hb) as (Ea & Eb & _).
  unfold mul, binop. rewrite Ea, Eb. apply in_type_exact.
  destruct Ha, Hb. nia.
Qed.

Lemma add_exact (a b : cint) :
  held a -> held b ->
  cval a + cval b <= max_of (common (ctype a) (ctype b)) ->
  add a b = Ok (mk (common (ctype a) (ctype b)) (cval a + cval b)).
Proof.
  intros Ha Hb Hmax. destruct (operands_held a b Ha Hb) as (Ea & Eb & _).
  unfold add, binop. rewrite Ea, Eb. apply in_type_exact.
  destruct Ha, Hb. lia.
Qed.

Lemma div_exact (a b : cint) :
  held a -> held b -> cval b <> 0 ->
  div a b = Ok (mk (common (ctype a) (ctype b)) (cval a / cval b)).
Proof.
  intros Ha Hb Hnz. destruct (operands_held a b Ha Hb) as (Ea & Eb & Hmax).
  unfold div, divop. rewrite Ea, Eb.
  destruct (Z.eqb_spec (cval b) 0) as [|_]; [contradiction|].
  destruct Ha as [Ha0 _], Hb as [Hb0 _].
  rewrite Z.quot_div_nonneg by lia. apply in_type_exact.
  split; [apply Z.div_pos; lia|].
  assert (cval a / cval b <= cval a) by (apply Z.div_le_upper_bound; nia). lia.
Qed.

Lemma rem_exact (a b : cint) :
  held a -> held b -> cval b <> 0 ->
  rem a b = Ok (mk (common (ctype a) (ctype b)) (cval a mod cval b)).
Proof.
  intros Ha Hb Hnz. destruct (operands_held a b Ha Hb) as (Ea & Eb & Hmax).
  unfold rem, divop. rewrite Ea, Eb.
  destruct (Z.eqb_spec (cval b) 0) as [|_]; [contradiction|].
  destruct Ha as [Ha0 _], Hb as [Hb0 _].
  rewrite Z.rem_mod_nonneg by lia. apply in_type_exact.
  pose proof (Z.mod_pos_bound (cval a) (cval b)).
  pose proof (Z.mod_le (cval a) (cval b)). lia.
Qed.

Lemma held_mk (t : ity) (v : Z) : 0 <= v <= max_of t -> held (mk t v).
Proof.
  intros Hv. split; [cbn; lia|]. apply representable_spec. cbn [ctype cval].
  destruct t; cbn in *; lia.
Qed.

Lemma cval_enumerator (v : Z) : cval (enumerator v) = v.
Proof. reflexivity. Qed.

(** Resolves the types of enumerators that fit an int. *)
Ltac settle_types :=
  cbn [cval ctype enumerator uint32_t size_t int];
  rewrite ?promoted_int by assumption;
  rewrite ?common_same, ?common_Int_l, ?common_Int_r, ?common_ULong_l,
    ?common_ULong_r;
  cbn [max_of].

Ltac held_mk_tac :=
  apply held_mk; settle_types; unfold uint32, uint64, nonneg_int in *;
  first [lia | nia].

(** The side conditions of a step: operands in range, result in range. *)
Ltac side :=
  first [ held_tac
        | held_mk_tac
        | settle_types; unfold uint32, uint64, nonneg_int in *;
          first [lia | nia] ].

(** Carries the value of a finished step into the rest of the instantiation. *)
Ltac carry :=
  cbn [bind cval ctype static_assert uint32_t size_t int];
  rewrite ?cval_enumerator.

(** One step of an instantiation that is accepted. *)
Ltac ok lemma := rewrite lemma by side; carry.

(** The finalize resolver on [rows] whole warps: every enumerator of the
    accepted instantiation, when the values fit an int. *)
Lemma finalize_runs :
  forall HIDDEN_SIZE_ weight_t_ input_t_ output_t_ compute_t_ index_t_ rows
         BYTES_PER_LDG_,
    0 <= rows <= 32 -> 1 <= BYTES_PER_LDG_ ->
    0 <= HIDDEN_SIZE_ -> 1 <= sizeof compute_t_ ->
    uint32 (sizeof compute_t_) -> uint32 (sizeof weight_t_) ->
    nonneg_int (HIDDEN_SIZE_ * sizeof compute_t_) ->
    (HIDDEN_SIZE_ * sizeof compute_t_) mod BYTES_PER_LDG_ = 0 ->
    (HIDDEN_SIZE_ * sizeof compute_t_ / BYTES_PER_LDG_) mod 32 = 0 ->
    nonneg_int (2 * (rows * 32 * BYTES_PER_LDG_) + 2 * (32 * BYTES_PER_LDG_)) ->
    Finalize.Kernel_traits_finalize HIDDEN_SIZE_ weight_t_ input_t_ output_t_
      compute_t_ index_t_ (rows * 32) BYTES_PER_LDG_
    = Ok {| Finalize.base :=
              Base.Kernel_traits_base HIDDEN_SIZE_ weight_t_ input_t_ output_t_
                compute_t_ index_t_ (rows * 32);
            Finalize.ROWS_PER_CTA := rows;
            Finalize.BYTES_PER_LDG := BYTES_PER_LDG_;
            Finalize.ELTS_PER_LDG := BYTES_PER_LDG_ / sizeof compute_t_;
            Finalize.BYTES_PER_STG :=
              BYTES_PER_LDG_ / sizeof compute_t_ * sizeof weight_t_;
            Finalize.COLS := HIDDEN_SIZE_ * sizeof compute_t_ / BYTES_PER_LDG_;
            Finalize.SMEM_BYTES_TRANSPOSE := rows * 32 * BYTES_PER_LDG_;
            Finalize.SMEM_BYTES_OUTPUT := 32 * BYTES_PER_LDG_;
            Finalize.SMEM_BYTES_PER_CTA :=
              2 * (rows * 32 * BYTES_PER_LDG_) + 2 * (32 * BYTES_PER_LDG_);
            Finalize.CTAS :=
              HIDDEN_SIZE_ * sizeof compute_t_ / BYTES_PER_LDG_ / 32 |}.
Proof.
  intros HIDDEN_SIZE_ weight_t_ input_t_ output_t_ compute_t_ index_t_ rows
         BYTES_PER_LDG_ Hrows HB HH Hc Hc32 Hw Hbytes Hexact Hwarp Hsmem.
  assert (HBi : nonneg_int BYTES_PER_LDG_) by (unfold nonneg_int in *; lia).
  assert (HTi : nonneg_int (rows * 32)) by (unfold nonneg_int; lia).
  assert (Hri : nonneg_int rows) by (unfold nonneg_int; lia).
  assert (H32 : nonneg_int 32) by (unfold nonneg_int; lia).
  assert (Hcols : nonneg_int (HIDDEN_SIZE_ * sizeof compute_t_ / BYTES_PER_LDG_)).
  { unfold nonneg_int in *. split; [apply Z.div_pos; lia|].
    apply Z.div_le_upper_bound; nia. }
  assert (Helts : nonneg_int (BYTES_PER_LDG_ / sizeof compute_t_)).
  { unfold nonneg_int in *. split; [apply Z.div_pos; lia|].
    apply Z.div_le_upper_bound; nia. }
  assert (Hmul : HIDDEN_SIZE_ * sizeof compute_t_ / BYTES_PER_LDG_ * BYTES_PER_LDG_
                 = HIDDEN_SIZE_ * sizeof compute_t_).
  { rewrite Z.mul_comm. symmetry. apply Z.div_exact; [lia | assumption]. }
  assert (Hst : nonneg_int (rows * 32 * BYTES_PER_LDG_))
    by (unfold nonneg_int in *; nia).
  assert (Hso : nonneg_int (32 * BYTES_PER_LDG_))
    by (unfold nonneg_int in *; nia).
  assert (Hst2 : nonneg_int (2 * (rows * 32 * BYTES_PER_LDG_)))
    by (unfold nonneg_int in *; nia).
  assert (Hso2 : nonneg_int (2 * (32 * BYTES_PER_LDG_)))
    by (unfold nonneg_int in *; nia).
  unfold Finalize.Kernel_traits_finalize, enum, sizeof_. cbv zeta.
  cbn [Base.Kernel_traits_base Base.THREADS_PER_CTA Base.THREADS_PER_WARP
       cval uint32_t int].
  ok div_exact. rewrite Z.div_mul by lia.
  rewrite le_static_cast_int by assumption.
  rewrite (proj2 (Z.leb_le rows 32)) by lia. carry.
  ok div_exact. ok mul_exact.
  ok four_byte_ldg_never_fails.
  ok mul_exact. ok eq_held. rewrite Z.eqb_refl. carry.
  ok mul_exact. settle_types. ok div_exact.
  ok mul_exact. ok eq_held. rewrite Hmul, Z.eqb_refl. carry.
  ok mul_exact. ok mul_exact. ok mul_exact. ok mul_exact. settle_types.
  ok add_exact.
  ok rem_exact. ok eq_held. rewrite Hwarp. carry.
  ok div_exact. reflexivity.
Qed.

(** ** The finalize resolver: acceptance and shape *)

(** X1: with arguments whose products fit an int, the finalize resolver
    accepts exactly when the threads are whole warps, at most 1024, the bytes
    of a load are not zero and divide hidden-size * compute-element-size, and
    the columns are a multiple of 32; it then yields the enumerators given
    here, and otherwise it is rejected. *)
Theorem finalize_accepts_exactly :
  forall HIDDEN_SIZE_ weight_t_ input_t_ output_t_ compute_t_ index_t_
         THREADS_PER_CTA_ BYTES_PER_LDG_,
    let admissible :=
      THREADS_PER_CTA_ mod 32 = 0 /\ THREADS_PER_CTA_ <= 1024 /\
      1 <= BYTES_PER_LDG_ /\
      (HIDDEN_SIZE_ * sizeof compute_t_) mod BYTES_PER_LDG_ = 0 /\
      (HIDDEN_SIZE_ * sizeof compute_t_ / BYTES_PER_LDG_) mod 32 = 0 in
    uint32 HIDDEN_SIZE_ -> uint32 THREADS_PER_CTA_ -> uint32 BYTES_PER_LDG_ ->
    1 <= sizeof compute_t_ -> uint32 (sizeof compute_t_) ->
    uint32 (sizeof weight_t_) ->
    nonneg_int (HIDDEN_SIZE_ * sizeof compute_t_) ->
    nonneg_int (2 * (THREADS_PER_CTA_ * BYTES_PER_LDG_)
                + 2 * (32 * BYTES_PER_LDG_)) ->
    (admissible ->
     Finalize.Kernel_traits_finalize HIDDEN_SIZE_ weight_t_ input_t_ output_t_
       compute_t_ index_t_ THREADS_PER_CTA_ BYTES_PER_LDG_
     = Ok {| Finalize.base :=
               Base.Kernel_traits_base HIDDEN_SIZE_ weight_t_ input_t_ output_t_
                 compute_t_ index_t_ THREADS_PER_CTA_;
             Finalize.ROWS_PER_CTA := THREADS_PER_CTA_ / 32;
             Finalize.BYTES_PER_LDG := BYTES_PER_LDG_;
             Finalize.ELTS_PER_LDG := BYTES_PER_LDG_ / sizeof compute_t_;
             Finalize.BYTES_PER_STG :=
               BYTES_PER_LDG_ / sizeof compute_t_ * sizeof weight_t_;
             Finalize.COLS := HIDDEN_SIZE_ * sizeof compute_t_ / BYTES_PER_LDG_;
             Finalize.SMEM_BYTES_TRANSPOSE := THREADS_PER_CTA_ * BYTES_PER_LDG_;
             Finalize.SMEM_BYTES_OUTPUT := 32 * BYTES_PER_LDG_;
             Finalize.SMEM_BYTES_PER_CTA :=
               2 * (THREADS_PER_CTA_ * BYTES_PER_LDG_)
               + 2 * (32 * BYTES_PER_LDG_);
             Finalize.CTAS :=
               HIDDEN_SIZE_ * sizeof compute_t_ / BYTES_PER_LDG_ / 32 |}) /\
    (~ admissible ->
     accepted (Finalize.Kernel_traits_finalize HIDDEN_SIZE_ weight_t_ input_t_
                 output_t_ compute_t_ index_t_ THREADS_PER_CTA_ BYTES_PER_LDG_)
     = false).
Proof.
  intros HIDDEN_SIZE_ weight_t_ input_t_ output_t_ compute_t_ index_t_
         THREADS_PER_CTA_ BYTES_PER_LDG_ admissible HH HT HB Hc1 Hc Hw Hbytes
         Hsmem.
  split.
  - intros (Hwarps & Hmax & HB1 & Hexact & Hcols).
    assert (ET : THREADS_PER_CTA_ / 32 * 32 = THREADS_PER_CTA_).
    { rewrite Z.mul_comm. symmetry. apply Z.div_exact; [discriminate | assumption]. }
    assert (Hrows : 0 <= THREADS_PER_CTA_ / 32 <= 32).
    { unfold uint32 in *. split; [apply Z.div_pos; lia|].
      apply Z.div_le_upper_bound; lia. }
    pose proof (finalize_runs HIDDEN_SIZE_ weight_t_ input_t_ output_t_
                  compute_t_ index_t_ (THREADS_PER_CTA_ / 32) BYTES_PER_LDG_
                  Hrows HB1 ltac:(unfold uint32 in *; lia) Hc1 Hc Hw Hbytes
                  Hexact Hcols) as Hrun.
    rewrite ET in Hrun. apply Hrun. assumption.
  - intros Hnot.
    destruct (Finalize.Kernel_traits_finalize _ _ _ _ _ _ _ _) as [t|d] eqn:Hok;
      [exfalso | reflexivity].
    apply Hnot.
    destruct (finalize_rows _ _ _ _ _ _ _ _ _ HT Hok) as (_ & Hle & Hmul & _).
    destruct (finalize_cols _ _ _ _ _ _ _ _ _ HH HB Hc Hok)
      as (_ & HB0 & _ & Hcols & Hexact & Hwarp & _).
    unfold admissible. rewrite <- Hcols. repeat split.
    + rewrite Hmul. apply Z.mod_mul. discriminate.
    + lia.
    + unfold uint32 in *. lia.
    + rewrite <- Hexact. apply Z.mod_mul. assumption.
    + assumption.
Qed.

(** X2: the assertion of line 44 compares the size of the enumerator
    [BYTES_PER_LDG], which is that of its enumeration, so whatever 32-bit
    bytes-per-load is given it is never the reason of a rejection. *)
Theorem finalize_four_byte_assertion_never_fires :
  forall HIDDEN_SIZE_ weight_t_ input_t_ output_t_ compute_t_ index_t_
         THREADS_PER_CTA_ BYTES_PER_LDG_,
    uint32 BYTES_PER_LDG_ ->
    Finalize.Kernel_traits_finalize HIDDEN_SIZE_ weight_t_ input_t_ output_t_
      compute_t_ index_t_ THREADS_PER_CTA_ BYTES_PER_LDG_
    <> Rejected (Static_assert_failed four_byte_ldg).
Proof.
  intros HIDDEN_SIZE_ weight_t_ input_t_ output_t_ compute_t_ index_t_
         THREADS_PER_CTA_ BYTES_PER_LDG_ HB Hrej.
  unfold Finalize.Kernel_traits_finalize in Hrej. cbv zeta in Hrej.
  cbn [Base.Kernel_traits_base Base.THREADS_PER_CTA Base.THREADS_PER_WARP
       cval uint32_t int] in Hrej.
  why_rejected; try discriminate; try congruence.
  match goal with
  | H : enum (Ok (uint32_t BYTES_PER_LDG_)) = Ok ?v |- _ =>
      cbn in H; injection H as <-
  end.
  rewrite four_byte_ldg_never_fails in Hrej by assumption. discriminate.
Qed.

(** X2 with an 8-byte compute type and 16 bytes per load. *)
Lemma finalize_four_byte_assertion_never_fires_witness :
  Finalize.Kernel_traits_finalize 1024 two_byte two_byte two_byte eight_byte
    four_byte 1000 16
  <> Rejected (Static_assert_failed four_byte_ldg).
Proof.
  apply finalize_four_byte_assertion_never_fires. unfold uint32. lia.
Defined.

(** X3: an accepted finalize instantiation has whole warps, one per row:
    the threads of a block are rows-per-block * 32, a multiple of 32 and at
    most 1024; a thread count that is not a multiple of 32 is rejected. *)
Theorem finalize_whole_warps :
  forall HIDDEN_SIZE_ weight_t_ input_t_ output_t_ compute_t_ index_t_
         THREADS_PER_CTA_ BYTES_PER_LDG_,
    uint32 THREADS_PER_CTA_ ->
    (forall t,
        Finalize.Kernel_traits_finalize HIDDEN_SIZE_ weight_t_ input_t_ output_t_
          compute_t_ index_t_ THREADS_PER_CTA_ BYTES_PER_LDG_ = Ok t ->
        Base.THREADS_PER_CTA (Finalize.base t) = Finalize.ROWS_PER_CTA t * 32 /\
        THREADS_PER_CTA_ mod 32 = 0 /\
        THREADS_PER_CTA_ <= 1024) /\
    (THREADS_PER_CTA_ mod 32 <> 0 ->
     accepted (Finalize.Kernel_traits_finalize HIDDEN_SIZE_ weight_t_ input_t_
                 output_t_ compute_t_ index_t_ THREADS_PER_CTA_ BYTES_PER_LDG_)
     = false).
Proof.
  intros HIDDEN_SIZE_ weight_t_ input_t_ output_t_ compute_t_ index_t_
         THREADS_PER_CTA_ BYTES_PER_LDG_ HT.
  assert (Hinv : forall t,
    Finalize.Kernel_traits_finalize HIDDEN_SIZE_ weight_t_ input_t_ output_t_
      compute_t_ index_t_ THREADS_PER_CTA_ BYTES_PER_LDG_ = Ok t ->
    Base.THREADS_PER_CTA (Finalize.base t) = Finalize.ROWS_PER_CTA t * 32 /\
    THREADS_PER_CTA_ mod 32 = 0 /\
    THREADS_PER_CTA_ <= 1024).
  { intros t Hok.
    destruct (finalize_rows _ _ _ _ _ _ _ _ _ HT Hok) as (_ & Hle & Hmul & Hbase).
    rewrite Hbase. repeat split; [exact Hmul | | lia].
    rewrite Hmul. apply Z.mod_mul. discriminate. }
  split; [exact Hinv|].
  intros Hrem.
  destruct (Finalize.Kernel_traits_finalize _ _ _ _ _ _ _ _) as [t|d] eqn:Hok;
    [exfalso | reflexivity].
  destruct (Hinv t eq_refl) as (_ & Hmod & _). contradiction.
Qed.

(** X3 with 256 threads, accepted, and with 250 threads, rejected. *)
Lemma finalize_whole_warps_witness :
  (exists t,
      Finalize.Kernel_traits_finalize 1024 two_byte two_byte two_byte four_byte
        four_byte 256 4 = Ok t /\
      Base.THREADS_PER_CTA (Finalize.base t) = Finalize.ROWS_PER_CTA t * 32) /\
  accepted (Finalize.Kernel_traits_finalize 1024 two_byte two_byte two_byte
              four_byte four_byte 250 4) = false.
Proof.
  split.
  - run.
    apply (proj1 (finalize_whole_warps 1024 two_byte two_byte two_byte
                    four_byte four_byte 256 4 ltac:(ranges))).
    vm_compute. reflexivity.
  - apply (proj2 (finalize_whole_warps 1024 two_byte two_byte two_byte
                    four_byte four_byte 250 4 ltac:(ranges))).
    discriminate.
Defined.

(** X4: in an accepted finalize instantiation the blocks, each of 32 loads,
    cover the hidden vector exactly: blocks * 32 is the columns and
    blocks * 32 * bytes-per-load is hidden-size * compute-element-size. *)
Theorem finalize_blocks_tile_hidden_vector :
  forall HIDDEN_SIZE_ weight_t_ input_t_ output_t_ compute_t_ index_t_
         THREADS_PER_CTA_ BYTES_PER_LDG_ t,
    uint32 HIDDEN_SIZE_ -> uint32 BYTES_PER_LDG_ -> uint32 (sizeof compute_t_) ->
    Finalize.Kernel_traits_finalize HIDDEN_SIZE_ weight_t_ input_t_ output_t_
      compute_t_ index_t_ THREADS_PER_CTA_ BYTES_PER_LDG_ = Ok t ->
    Finalize.CTAS t * 32 = Finalize.COLS t /\
    Finalize.CTAS t * (32 * Finalize.BYTES_PER_LDG t)
    = Base.HIDDEN_SIZE (Finalize.base t)
      * sizeof (Base.compute_t (Finalize.base t)).
Proof.
  intros HIDDEN_SIZE_ weight_t_ input_t_ output_t_ compute_t_ index_t_
         THREADS_PER_CTA_ BYTES_PER_LDG_ t HH HB Hc Hok.
  destruct (finalize_cols _ _ _ _ _ _ _ _ _ HH HB Hc Hok)
    as (Hldg & _ & _ & _ & Hmul & Hwarp & Hctas).
  assert (Hbase : Base.HIDDEN_SIZE (Finalize.base t) = HIDDEN_SIZE_ /\
                  Base.compute_t (Finalize.base t) = compute_t_).
  { open_finalize Hok. subst t. split; reflexivity. }
  destruct Hbase as [-> ->].
  assert (H32 : Finalize.CTAS t * 32 = Finalize.COLS t).
  { rewrite Hctas. apply Z.div_exact in Hwarp; lia. }
  split; [exact H32|]. rewrite Hldg, <- Hmul, <- H32. ring.
Qed.

(** X4 at hidden size 1024, a 4-byte compute type and 4 bytes per load. *)
Lemma finalize_blocks_tile_hidden_vector_witness :
  exists t,
    Finalize.Kernel_traits_finalize 1024 two_byte two_byte two_byte four_byte
      four_byte 1024 4 = Ok t /\
    Finalize.CTAS t * (32 * Finalize.BYTES_PER_LDG t)
    = Base.HIDDEN_SIZE (Finalize.base t)
      * sizeof (Base.compute_t (Finalize.base t)).
Proof.
  run.
  apply (finalize_blocks_tile_hidden_vector 1024 two_byte two_byte two_byte
           four_byte four_byte 1024 4 _
           ltac:(ranges) ltac:(ranges) ltac:(ranges)).
  vm_compute. reflexivity.
Defined.

(** X5: in an accepted finalize instantiation the elements of a load are the
    truncated quotient bytes-per-load / compute-element-size, zero exactly
    when a load is narrower than a compute element; the bytes of a store are
    that many weight elements, and do not exceed the bytes of a load when
    the weight element is no larger than the compute element. *)
Theorem finalize_store_width :
  forall HIDDEN_SIZE_ weight_t_ input_t_ output_t_ compute_t_ index_t_
         THREADS_PER_CTA_ BYTES_PER_LDG_ t,
    uint32 BYTES_PER_LDG_ -> uint32 (sizeof compute_t_) ->
    uint32 (sizeof weight_t_) ->
    Finalize.Kernel_traits_finalize HIDDEN_SIZE_ weight_t_ input_t_ output_t_
      compute_t_ index_t_ THREADS_PER_CTA_ BYTES_PER_LDG_ = Ok t ->
    Finalize.ELTS_PER_LDG t = Finalize.BYTES_PER_LDG t / sizeof compute_t_ /\
    Finalize.BYTES_PER_STG t = Finalize.ELTS_PER_LDG t * sizeof weight_t_ /\
    Finalize.ELTS_PER_LDG t * sizeof compute_t_ <= Finalize.BYTES_PER_LDG t /\
    (Finalize.ELTS_PER_LDG t = 0 <-> Finalize.BYTES_PER_LDG t < sizeof compute_t_) /\
    (sizeof weight_t_ <= sizeof compute_t_ ->
     Finalize.BYTES_PER_STG t <= Finalize.BYTES_PER_LDG t).
Proof.
  intros HIDDEN_SIZE_ weight_t_ input_t_ output_t_ compute_t_ index_t_
         THREADS_PER_CTA_ BYTES_PER_LDG_ t HB Hc Hw Hok.
  open_finalize Hok. typed_facts. resolve_types.
  cbn [Finalize.ELTS_PER_LDG Finalize.BYTES_PER_STG Finalize.BYTES_PER_LDG].
  match goal with
  | He : cval ?e = BYTES_PER_LDG_ / sizeof compute_t_,
    Hb : sizeof compute_t_ * cval ?e <= BYTES_PER_LDG_ < _,
    Hs : cval ?e * sizeof weight_t_ <= _ -> cval ?s = _ |- _ =>
      assert (H0e : 0 <= cval e) by (rewrite He; apply Z.div_pos; unfold uint32 in *; lia);
      assert (Es : cval s = cval e * sizeof weight_t_)
        by (apply Hs; unfold uint32 in *; nia);
      clear - HB Hc Hw He Hb Es H0e
  end.
  unfold uint32 in *. repeat split; try lia; try nia.
Qed.

(** X5 with 2-byte weights, a 4-byte compute type and 4 bytes per load. *)
Lemma finalize_store_width_witness :
  exists t,
    Finalize.Kernel_traits_finalize 1024 two_byte two_byte two_byte four_byte
      four_byte 1024 4 = Ok t /\
    Finalize.BYTES_PER_STG t = Finalize.ELTS_PER_LDG t * 2 /\
    Finalize.BYTES_PER_STG t <= Finalize.BYTES_PER_LDG t.
Proof.
  run.
  destruct (finalize_store_width 1024 two_byte two_byte two_byte four_byte
              four_byte 1024 4 _ ltac:(ranges) ltac:(ranges) ltac:(ranges)
              ltac:(vm_compute; reflexivity)) as (_ & Hs & _ & _ & Hle).
  split; [exact Hs | apply Hle; cbn; lia].
Defined.

(** ** The main resolver: acceptance and shape *)

(** An accepted sum of at most 2^32 - 1 has its exact value: a signed sum
    that overflows is rejected, an unsigned one of this size does not wrap. *)
Lemma add_small (a b r : cint) :
  held a -> held b -> add a b = Ok r ->
  cval a + cval b <= 4294967295 -> cval r = cval a + cval b.
Proof.
  intros Ha Hb Hadd Hsum.
  destruct (operands_held a b Ha Hb) as (Ea & Eb & _).
  unfold add, binop in Hadd. rewrite Ea, Eb in Hadd.
  destruct Ha as [Ha0 _], Hb as [Hb0 _].
  apply in_type_held in Hadd; [|lia].
  destruct Hadd as (_ & _ & _ & Hs & _ & Hmax).
  destruct (common (ctype a) (ctype b)); cbn in *;
    first [ now apply Hs | apply Hmax; lia ].
Qed.

(** An accepted sum that fits the common type has its exact value. *)
Lemma add_fits (a b r : cint) :
  held a -> held b -> add a b = Ok r ->
  cval a + cval b <= max_of (common (ctype a) (ctype b)) ->
  cval r = cval a + cval b.
Proof.
  intros Ha Hb Hadd Hsum.
  destruct (operands_held a b Ha Hb) as (Ea & Eb & _).
  unfold add, binop in Hadd. rewrite Ea, Eb in Hadd.
  destruct Ha as [Ha0 _], Hb as [Hb0 _].
  apply in_type_held in Hadd; [|lia].
  destruct Hadd as (_ & _ & _ & _ & _ & Hmax). now apply Hmax.
Qed.

Section MoreOnMain.

Variable TypeToVec2 : elt_type -> option elt_type.
Variable Reducer_SMEM_BYTES : elt_type -> Z -> Z -> Z -> option Z.
Variable Stats_SMEM_BYTES : elt_type -> Z -> Z -> Z -> option Z.


(** X7: in an accepted main instantiation a load holds at least one input
    element: the input element size is between 1 and the bytes of a load,
    [NUM_ELTS] and [ELTS_PER_LDG] agree and are at least 1, and the elements
    of a load fit in its bytes; a load narrower than an input element is
    rejected, its zero elements per load being a divisor. *)
Theorem main_ldg_holds_an_element :
  forall weight_t_ input_t_ output_t_ compute_t_ index_t_
         HIDDEN_SIZE_ CTAS_PER_ROW_ WARPS_M_ WARPS_N_ BYTES_PER_LDG_,
    uint32 HIDDEN_SIZE_ -> uint32 BYTES_PER_LDG_ -> uint64 (sizeof input_t_) ->
    (forall t,
        Main.Kernel_traits TypeToVec2 Reducer_SMEM_BYTES Stats_SMEM_BYTES
          weight_t_ input_t_ output_t_ compute_t_ index_t_
          HIDDEN_SIZE_ CTAS_PER_ROW_ WARPS_M_ WARPS_N_ BYTES_PER_LDG_ = Ok t ->
        1 <= sizeof input_t_ <= Main.BYTES_PER_LDG t /\
        Main.NUM_ELTS t = Main.ELTS_PER_LDG t /\
        1 <= Main.ELTS_PER_LDG t /\
        Main.ELTS_PER_LDG t * sizeof input_t_ <= Main.BYTES_PER_LDG t) /\
    (BYTES_PER_LDG_ < sizeof input_t_ ->
     accepted (Main.Kernel_traits TypeToVec2 Reducer_SMEM_BYTES Stats_SMEM_BYTES
                 weight_t_ input_t_ output_t_ compute_t_ index_t_
                 HIDDEN_SIZE_ CTAS_PER_ROW_ WARPS_M_ WARPS_N_ BYTES_PER_LDG_)
     = false).
Proof.
  intros weight_t_ input_t_ output_t_ compute_t_ index_t_
         HIDDEN_SIZE_ CTAS_PER_ROW_ WARPS_M_ WARPS_N_ BYTES_PER_LDG_ HH HB Hi.
  assert (Hinv : forall t,
    Main.Kernel_traits TypeToVec2 Reducer_SMEM_BYTES Stats_SMEM_BYTES
      weight_t_ input_t_ output_t_ compute_t_ index_t_
      HIDDEN_SIZE_ CTAS_PER_ROW_ WARPS_M_ WARPS_N_ BYTES_PER_LDG_ = Ok t ->
    Main.BYTES_PER_LDG t = BYTES_PER_LDG_ /\
    1 <= sizeof input_t_ <= Main.BYTES_PER_LDG t /\
    Main.NUM_ELTS t = Main.ELTS_PER_LDG t /\
    1 <= Main.ELTS_PER_LDG t /\
    Main.ELTS_PER_LDG t * sizeof input_t_ <= Main.BYTES_PER_LDG t).
  { intros t Hok. open_main Hok. typed_facts.
    cbn [Main.BYTES_PER_LDG Main.NUM_ELTS Main.ELTS_PER_LDG].
    match goal with
    | |- _ /\ _ /\ cval ?n = cval ?e /\ _ =>
        match goal with
        | Hh : held e, He : cval e <> 0, Hv : cval e = _ / _,
          Hb : _ * cval e <= _ < _, Hn : cval n = _ / _ |- _ =>
            destruct Hh as [H0e _]; clear - HB Hi H0e He Hv Hb Hn
        end
    end.
    unfold uint32, uint64 in *. repeat split; try lia; try nia. }
  split.
  - intros t Hok. destruct (Hinv t Hok) as (_ & H1 & H2 & H3 & H4).
    repeat split; try assumption; lia.
  - intros Hlt.
    destruct (Main.Kernel_traits _ _ _ _ _ _ _ _ _ _ _ _ _) as [t|d] eqn:Hok;
      [exfalso | reflexivity].
    destruct (Hinv t eq_refl) as (E & H1 & _). rewrite E in H1. lia.
Qed.

(** What an accepted main instantiation says about the loads of a thread,
    for every 32-bit argument: the two products of lines 88 and 115 are taken
    modulo 2^32. *)
Lemma main_geometry weight_t_ input_t_ output_t_ compute_t_ index_t_
    HIDDEN_SIZE_ CTAS_PER_ROW_ WARPS_M_ WARPS_N_ BYTES_PER_LDG_ t :
  uint32 HIDDEN_SIZE_ -> uint32 BYTES_PER_LDG_ -> uint32 CTAS_PER_ROW_ ->
  uint32 WARPS_N_ -> uint64 (sizeof input_t_) ->
  Main.Kernel_traits TypeToVec2 Reducer_SMEM_BYTES Stats_SMEM_BYTES
    weight_t_ input_t_ output_t_ compute_t_ index_t_
    HIDDEN_SIZE_ CTAS_PER_ROW_ WARPS_M_ WARPS_N_ BYTES_PER_LDG_ = Ok t ->
  Main.HIDDEN_SIZE t = HIDDEN_SIZE_ /\
  Main.CTAS_PER_ROW t = CTAS_PER_ROW_ /\
  Main.WARPS_N t = WARPS_N_ /\
  Main.THREADS_PER_ROW t = (WARPS_N_ * 32) mod 4294967296 /\
  Main.ELTS_PER_LDG t = BYTES_PER_LDG_ / sizeof input_t_ /\
  1 <= Main.ELTS_PER_LDG t /\
  Main.VEC_COLS_PER_LDG t
  = (CTAS_PER_ROW_ * Main.THREADS_PER_ROW t) mod 4294967296 /\
  1 <= Main.VEC_COLS_PER_LDG t /\
  Main.VEC_COLS t = HIDDEN_SIZE_ / Main.ELTS_PER_LDG t /\
  Main.LDGS t = Main.VEC_COLS t / Main.VEC_COLS_PER_LDG t /\
  Main.LDGS t * Main.VEC_COLS_PER_LDG t = Main.VEC_COLS t.
Proof.
  intros HH HB HC HN Hi Hok. open_main Hok. subst.
  unfold THREADS_PER_WARP, sizeof_ in *.
  cbn [cval uint32_t Main.HIDDEN_SIZE Main.CTAS_PER_ROW Main.WARPS_N
       Main.THREADS_PER_ROW Main.ELTS_PER_LDG Main.VEC_COLS_PER_LDG
       Main.VEC_COLS Main.LDGS] in *.
  lazymatch goal with
  | Htpr : mul (enumerator WARPS_N_) (uint32_t 32) = Ok ?tpr,
    Hvc : mul (enumerator CTAS_PER_ROW_) (enumerator (cval ?tpr)) = Ok ?vc,
    Hcols : div (enumerator HIDDEN_SIZE_) (enumerator (cval ?el)) = Ok ?cols,
    Hel : div (enumerator BYTES_PER_LDG_) (size_t (sizeof input_t_)) = Ok ?el,
    Hld : div (enumerator (cval ?cols)) (enumerator (cval ?vc)) = Ok ?ld,
    Hm : mul (enumerator (cval ?ld)) (enumerator (cval ?vc)) = Ok ?m,
    He : CInt.eq ?m (enumerator (cval ?cols)) = true |- _ =>
      destruct (mul_narrow (enumerator WARPS_N_) (uint32_t 32) tpr
                  ltac:(held_tac) ltac:(held_tac)
                  (narrow_enumerator _ HN) ltac:(cbn; lia) Htpr)
        as (_ & Hutpr & Etpr & _);
      destruct (mul_narrow (enumerator CTAS_PER_ROW_) (enumerator (cval tpr)) vc
                  ltac:(held_tac) ltac:(held_tac)
                  (narrow_enumerator _ HC) (narrow_enumerator _ Hutpr) Hvc)
        as (_ & Huvc & Evc & _);
      destruct (div_held (enumerator BYTES_PER_LDG_) (size_t (sizeof input_t_)) el
                  ltac:(held_tac) ltac:(held_tac) Hel)
        as ([Hel0 _] & Hsz & Eel & Hel1);
      cbn [cval enumerator size_t uint32_t] in Etpr, Evc, Hsz, Eel, Hel1;
      assert (Huel : uint32 (cval el))
        by (unfold uint32, uint64 in *; split; [assumption | nia]);
      destruct (div_held (enumerator HIDDEN_SIZE_) (enumerator (cval el)) cols
                  ltac:(held_tac) ltac:(held_tac) Hcols)
        as ([Hcols0 _] & Helnz & Ecols & Hcols1);
      cbn [cval enumerator] in Helnz, Ecols, Hcols1;
      assert (Hucols : uint32 (cval cols))
        by (unfold uint32 in *; split; [assumption | nia]);
      destruct (div_held (enumerator (cval cols)) (enumerator (cval vc)) ld
                  ltac:(held_tac) ltac:(held_tac) Hld)
        as ([Hld0 _] & Hvcnz & Eld & Hld1);
      cbn [cval enumerator] in Hvcnz, Eld, Hld1;
      assert (Huld : uint32 (cval ld))
        by (unfold uint32 in *; split; [assumption | nia]);
      destruct (mul_narrow (enumerator (cval ld)) (enumerator (cval vc)) m
                  ltac:(held_tac) ltac:(held_tac)
                  (narrow_enumerator _ Huld) (narrow_enumerator _ Huvc) Hm)
        as (Hhm & _ & _ & Em & _);
      cbn [cval enumerator] in Em;
      rewrite (eq_held m (enumerator (cval cols)) Hhm ltac:(held_tac)) in He;
      apply Z.eqb_eq in He; cbn [cval enumerator] in He;
      rewrite Em in He by (unfold uint32 in *; nia)
  end.
  unfold uint32 in *. repeat split; try assumption; try reflexivity; lia.
Qed.

(** X8: an accepted main instantiation has at least one block per row and
    one warp across the row; its threads per row are warps * 32 modulo 2^32
    and the columns of a load blocks * threads-per-row modulo 2^32, each at
    least 32, and they are the products themselves when blocks * warps * 32
    is at most 2^32 - 1; zero blocks per row or zero warps across the row
    are rejected. *)
Theorem main_positive_topology :
  forall weight_t_ input_t_ output_t_ compute_t_ index_t_
         HIDDEN_SIZE_ CTAS_PER_ROW_ WARPS_M_ WARPS_N_ BYTES_PER_LDG_,
    uint32 HIDDEN_SIZE_ -> uint32 BYTES_PER_LDG_ -> uint32 CTAS_PER_ROW_ ->
    uint32 WARPS_N_ -> uint64 (sizeof input_t_) ->
    (forall t,
        Main.Kernel_traits TypeToVec2 Reducer_SMEM_BYTES Stats_SMEM_BYTES
          weight_t_ input_t_ output_t_ compute_t_ index_t_
          HIDDEN_SIZE_ CTAS_PER_ROW_ WARPS_M_ WARPS_N_ BYTES_PER_LDG_ = Ok t ->
        Main.CTAS_PER_ROW t = CTAS_PER_ROW_ /\ 1 <= CTAS_PER_ROW_ /\
        Main.WARPS_N t = WARPS_N_ /\ 1 <= WARPS_N_ /\
        Main.THREADS_PER_ROW t = (WARPS_N_ * 32) mod 4294967296 /\
        32 <= Main.THREADS_PER_ROW t /\
        Main.VEC_COLS_PER_LDG t
        = (CTAS_PER_ROW_ * ((WARPS_N_ * 32) mod 4294967296)) mod 4294967296 /\
        32 <= Main.VEC_COLS_PER_LDG t /\
        (CTAS_PER_ROW_ * (WARPS_N_ * 32) <= 4294967295 ->
         Main.THREADS_PER_ROW t = WARPS_N_ * 32 /\
         Main.VEC_COLS_PER_LDG t = CTAS_PER_ROW_ * (WARPS_N_ * 32))) /\
    (CTAS_PER_ROW_ = 0 \/ WARPS_N_ = 0 ->
     accepted (Main.Kernel_traits TypeToVec2 Reducer_SMEM_BYTES Stats_SMEM_BYTES
                 weight_t_ input_t_ output_t_ compute_t_ index_t_
                 HIDDEN_SIZE_ CTAS_PER_ROW_ WARPS_M_ WARPS_N_ BYTES_PER_LDG_)
     = false).
Proof.
  intros weight_t_ input_t_ output_t_ compute_t_ index_t_
         HIDDEN_SIZE_ CTAS_PER_ROW_ WARPS_M_ WARPS_N_ BYTES_PER_LDG_
         HH HB HC HN Hi.
  assert (Hinv : forall t,
    Main.Kernel_traits TypeToVec2 Reducer_SMEM_BYTES Stats_SMEM_BYTES
      weight_t_ input_t_ output_t_ compute_t_ index_t_
      HIDDEN_SIZE_ CTAS_PER_ROW_ WARPS_M_ WARPS_N_ BYTES_PER_LDG_ = Ok t ->
    Main.CTAS_PER_ROW t = CTAS_PER_ROW_ /\ 1 <= CTAS_PER_ROW_ /\
    Main.WARPS_N t = WARPS_N_ /\ 1 <= WARPS_N_ /\
    Main.THREADS_PER_ROW t = (WARPS_N_ * 32) mod 4294967296 /\
    32 <= Main.THREADS_PER_ROW t /\
    Main.VEC_COLS_PER_LDG t
    = (CTAS_PER_ROW_ * ((WARPS_N_ * 32) mod 4294967296)) mod 4294967296 /\
    32 <= Main.VEC_COLS_PER_LDG t /\
    (CTAS_PER_ROW_ * (WARPS_N_ * 32) <= 4294967295 ->
     Main.THREADS_PER_ROW t = WARPS_N_ * 32 /\
     Main.VEC_COLS_PER_LDG t = CTAS_PER_ROW_ * (WARPS_N_ * 32))).
  { intros t Hok.
    destruct (main_geometry _ _ _ _ _ _ _ _ _ _ _ HH HB HC HN Hi Hok)
      as (_ & Hctas & Hn & Htpr & _ & _ & Hvc & Hvc1 & _).
    rewrite Htpr in Hvc.
    assert (Htpr32 : (WARPS_N_ * 32) mod 4294967296
                     = WARPS_N_ mod 134217728 * 32).
    { change 4294967296 with (134217728 * 32).
      apply Z.mul_mod_distr_r; discriminate. }
    assert (Hvc32 : (CTAS_PER_ROW_ * (WARPS_N_ mod 134217728 * 32))
                      mod 4294967296
                    = (CTAS_PER_ROW_ * (WARPS_N_ mod 134217728))
                        mod 134217728 * 32).
    { rewrite Z.mul_assoc. change 4294967296 with (134217728 * 32).
      apply Z.mul_mod_distr_r; discriminate. }
    rewrite Htpr32 in *. rewrite Hvc32 in Hvc.
    pose proof (Z.mod_pos_bound WARPS_N_ 134217728 eq_refl) as Hb1.
    pose proof (Z.mod_pos_bound (CTAS_PER_ROW_ * (WARPS_N_ mod 134217728))
                  134217728 eq_refl) as Hb2.
    assert (Hvnz : (CTAS_PER_ROW_ * (WARPS_N_ mod 134217728)) mod 134217728
                   <> 0) by lia.
    assert (Hnz : CTAS_PER_ROW_ * (WARPS_N_ mod 134217728) <> 0).
    { intros E. rewrite E in Hvnz. contradiction. }
    assert (Hnnz : WARPS_N_ <> 0).
    { intros E. rewrite E in Hnz. cbn in Hnz. lia. }
    unfold uint32 in *.
    repeat split; try assumption; try lia; try nia.
    - rewrite Htpr, Z.mod_small by nia. reflexivity.
    - rewrite Hvc, (Z.mod_small WARPS_N_), Z.mod_small by nia. ring. }
  split; [exact Hinv|].
  intros Hzero.
  destruct (Main.Kernel_traits _ _ _ _ _ _ _ _ _ _ _ _ _) as [t|d] eqn:Hok;
    [exfalso | reflexivity].
  destruct (Hinv t eq_refl) as (_ & H1 & _ & H2 & _). lia.
Qed.


(** X10: the thread count the main traits compute, [WARPS_M * (WARPS_N *
    32)], is the one given to the base as default argument, [WARPS_M_ *
    WARPS_N_ * 32] in 32-bit unsigned arithmetic; the rows of a block are
    [WARPS_M] and the columns the hidden size of the base. *)
Theorem main_threads_agree_with_base :
  forall weight_t_ input_t_ output_t_ compute_t_ index_t_
         HIDDEN_SIZE_ CTAS_PER_ROW_ WARPS_M_ WARPS_N_ BYTES_PER_LDG_ t,
    uint32 WARPS_M_ -> uint32 WARPS_N_ ->
    Main.Kernel_traits TypeToVec2 Reducer_SMEM_BYTES Stats_SMEM_BYTES
      weight_t_ input_t_ output_t_ compute_t_ index_t_
      HIDDEN_SIZE_ CTAS_PER_ROW_ WARPS_M_ WARPS_N_ BYTES_PER_LDG_ = Ok t ->
    Main.THREADS_PER_CTA t = Base.THREADS_PER_CTA (Main.base t) /\
    Main.THREADS_PER_CTA t = (WARPS_M_ * WARPS_N_ * 32) mod 4294967296 /\
    Main.ROWS_PER_CTA t = Main.WARPS_M t /\
    Main.HIDDEN_SIZE t = Base.HIDDEN_SIZE (Main.base t) /\
    Main.COLS t = Main.HIDDEN_SIZE t.
Proof.
  intros weight_t_ input_t_ output_t_ compute_t_ index_t_
         HIDDEN_SIZE_ CTAS_PER_ROW_ WARPS_M_ WARPS_N_ BYTES_PER_LDG_ t
         HM HN Hok.
  open_main Hok. typed_facts.
  cbn [Main.THREADS_PER_CTA Main.base Base.THREADS_PER_CTA Main.ROWS_PER_CTA
       Main.WARPS_M Main.HIDDEN_SIZE Main.COLS Base.HIDDEN_SIZE
       Base.Kernel_traits_base cval uint32_t enumerator].
  resolve_types.
  match goal with
  | Ht : ctype ?tpc = common (promoted WARPS_M_) (promoted (cval ?tpr)),
    Hh : held ?tpr |- cval ?tpc = cval ?base /\ _ =>
      assert (Etpr : cval tpr = (WARPS_N_ * 32) mod 4294967296);
      [ destruct (promoted_cases WARPS_N_ ltac:(in_range))
          as [(? & E) | [(? & E) | [(? & E) | (? & E)]]];
        rewrite E in *; resolve_types;
        first [ assumption | unfold uint32 in *; lia ]
      | assert (Etpc : cval tpc = (WARPS_M_ * cval tpr) mod 4294967296);
        [ destruct (promoted_cases WARPS_M_ ltac:(in_range))
            as [(? & Em) | [(? & Em) | [(? & Em) | (? & Em)]]];
          destruct (promoted_cases (cval tpr) ltac:(in_range))
            as [(? & Er) | [(? & Er) | [(? & Er) | (? & Er)]]];
          rewrite Em, Er in *; resolve_types;
          first [ assumption
                | unfold uint32 in *; lia
                | pose proof (Z.mod_pos_bound (WARPS_N_ * 32) 4294967296);
                  unfold uint32 in *; lia
                | rewrite Z.mod_small; lia ]
        | assert (Ebase : cval base = (WARPS_M_ * WARPS_N_ * 32) mod 4294967296);
          [ match goal with
            | H1 : cval base = (cval ?w * 32) mod 4294967296,
              H2 : cval ?w = (WARPS_M_ * WARPS_N_) mod 4294967296 |- _ =>
                rewrite H1, H2, Z.mul_mod_idemp_l by discriminate; reflexivity
            end
          | rewrite Etpc, Etpr, Ebase, Z.mul_mod_idemp_r by discriminate;
            rewrite Z.mul_assoc; repeat split; reflexivity ] ] ]
  end.
Qed.

(** X12: the shared memory of an accepted main instantiation is the
    gradient region of the reducer alone with more than one block per row,
    and the sum of that region and the weight-gradient region whenever the
    sum is at most 2^32 - 1. *)
Theorem main_smem_bytes_total :
  forall weight_t_ input_t_ output_t_ compute_t_ index_t_
         HIDDEN_SIZE_ CTAS_PER_ROW_ WARPS_M_ WARPS_N_ BYTES_PER_LDG_ t,
    uint32 HIDDEN_SIZE_ -> uint32 CTAS_PER_ROW_ -> uint32 WARPS_M_ ->
    uint64 (sizeof compute_t_) ->
    Main.Kernel_traits TypeToVec2 Reducer_SMEM_BYTES Stats_SMEM_BYTES
      weight_t_ input_t_ output_t_ compute_t_ index_t_
      HIDDEN_SIZE_ CTAS_PER_ROW_ WARPS_M_ WARPS_N_ BYTES_PER_LDG_ = Ok t ->
    uint64 (Main.SMEM_BYTES_DGRAD t) ->
    (1 < CTAS_PER_ROW_ -> Main.SMEM_BYTES t = Main.SMEM_BYTES_DGRAD t) /\
    (Main.SMEM_BYTES_DGRAD t + Main.SMEM_BYTES_WGRAD t <= 4294967295 ->
     Main.SMEM_BYTES t = Main.SMEM_BYTES_DGRAD t + Main.SMEM_BYTES_WGRAD t).
Proof.
  intros weight_t_ input_t_ output_t_ compute_t_ index_t_
         HIDDEN_SIZE_ CTAS_PER_ROW_ WARPS_M_ WARPS_N_ BYTES_PER_LDG_ t
         HH HC HM Hc Hok Hd.
  open_main Hok. subst.
  cbn [Main.SMEM_BYTES Main.SMEM_BYTES_DGRAD Main.SMEM_BYTES_WGRAD cval uint32_t]
    in *.
  change (cval (enumerator WARPS_M_)) with WARPS_M_ in *.
  match goal with
  | Hw : (if gt ?a ?b then _ else _) = Ok ?w,
    Ha : add (enumerator ?d) (enumerator (cval ?w)) = Ok ?s |- _ =>
      rewrite (gt_held a b ltac:(held_tac) ltac:(held_tac)) in Hw;
      cbn [cval int] in Hw;
      change (cval (enumerator CTAS_PER_ROW_)) with CTAS_PER_ROW_ in Hw;
      assert (Hheld : held w /\ (1 < CTAS_PER_ROW_ -> cval w = 0));
      [ destruct (Z.gtb_spec CTAS_PER_ROW_ 1) as [Hgt|Hle];
        [ injection Hw as <-; split; [split; vm_compute; congruence | reflexivity]
        | read_back; split; [typed_facts; assumption | lia] ]
      | destruct Hheld as [Hheld Hzero];
        pose proof (held_enumerator d Hd) as Hd';
        pose proof (held_enumerator (cval w) (held_uint64 w Hheld)) as Hw';
        split;
        [ intros Hgt;
          rewrite (add_fits _ _ _ Hd' Hw' Ha); cbn [cval enumerator ctype];
          rewrite (Hzero Hgt);
          [ lia
          | change (promoted 0) with Int; rewrite common_Int_r;
            pose proof (held_max _ Hd') as Hmax; cbn [cval enumerator ctype] in Hmax;
            lia ]
        | intros Hsum; exact (add_small _ _ _ Hd' Hw' Ha Hsum) ] ]
  end.
Qed.

(** The main resolver on arguments that satisfy its assertions: every
    enumerator of the accepted instantiation, when the values fit an int. *)
Lemma main_runs :
  forall weight_t_ input_t_ output_t_ compute_t_ index_t_
         HIDDEN_SIZE_ CTAS_PER_ROW_ WARPS_M_ WARPS_N_ BYTES_PER_LDG_
         reduce_t_ dgrad fwd,
    let wgrad := if 1 <? CTAS_PER_ROW_ then 0
                 else WARPS_M_ * HIDDEN_SIZE_ * sizeof compute_t_ in
    1 <= CTAS_PER_ROW_ -> 0 <= WARPS_M_ -> 1 <= WARPS_N_ ->
    WARPS_M_ = 1 \/ CTAS_PER_ROW_ = 1 ->
    1 <= sizeof input_t_ <= BYTES_PER_LDG_ ->
    0 <= sizeof output_t_ <= sizeof input_t_ ->
    0 <= sizeof weight_t_ <= sizeof input_t_ ->
    uint64 (sizeof compute_t_) ->
    nonneg_int HIDDEN_SIZE_ -> nonneg_int BYTES_PER_LDG_ ->
    nonneg_int (WARPS_M_ * WARPS_N_ * 32) ->
    nonneg_int (WARPS_N_ * 32 * BYTES_PER_LDG_) ->
    nonneg_int (CTAS_PER_ROW_ * (WARPS_N_ * 32)) ->
    nonneg_int (WARPS_M_ * HIDDEN_SIZE_) ->
    nonneg_int (HIDDEN_SIZE_ * sizeof input_t_) ->
    (HIDDEN_SIZE_ / (BYTES_PER_LDG_ / sizeof input_t_))
      mod (CTAS_PER_ROW_ * (WARPS_N_ * 32)) = 0 ->
    TypeToVec2 compute_t_ = Some reduce_t_ ->
    Reducer_SMEM_BYTES reduce_t_ CTAS_PER_ROW_ WARPS_M_ WARPS_N_ = Some dgrad ->
    Stats_SMEM_BYTES compute_t_ CTAS_PER_ROW_ WARPS_M_ WARPS_N_ = Some fwd ->
    nonneg_int dgrad -> nonneg_int wgrad -> nonneg_int (dgrad + wgrad) ->
    Main.Kernel_traits TypeToVec2 Reducer_SMEM_BYTES Stats_SMEM_BYTES
      weight_t_ input_t_ output_t_ compute_t_ index_t_
      HIDDEN_SIZE_ CTAS_PER_ROW_ WARPS_M_ WARPS_N_ BYTES_PER_LDG_
    = Ok {| Main.base :=
              Base.Kernel_traits_base HIDDEN_SIZE_ weight_t_ input_t_ output_t_
                compute_t_ index_t_ (WARPS_M_ * WARPS_N_ * 32);
            Main.CTAS_PER_ROW := CTAS_PER_ROW_;
            Main.WARPS_M := WARPS_M_;
            Main.WARPS_N := WARPS_N_;
            Main.COLS := HIDDEN_SIZE_;
            Main.HIDDEN_SIZE := HIDDEN_SIZE_;
            Main.BYTES_PER_LDG := BYTES_PER_LDG_;
            Main.NUM_ELTS := BYTES_PER_LDG_ / sizeof input_t_;
            Main.THREADS_PER_ROW := WARPS_N_ * 32;
            Main.THREADS_PER_CTA := WARPS_M_ * (WARPS_N_ * 32);
            Main.ROWS_PER_CTA := WARPS_M_;
            Main.BYTES_PER_ROW := HIDDEN_SIZE_ * sizeof input_t_;
            Main.BYTES_PER_ROW_PER_CTA := WARPS_N_ * 32 * BYTES_PER_LDG_;
            Main.SMEM_BYTES_WGRAD := wgrad;
            Main.reduce_t := reduce_t_;
            Main.SMEM_BYTES_DGRAD := dgrad;
            Main.SMEM_BYTES := dgrad + wgrad;
            Main.ELTS_PER_LDG := BYTES_PER_LDG_ / sizeof input_t_;
            Main.VEC_COLS_PER_LDG := CTAS_PER_ROW_ * (WARPS_N_ * 32);
            Main.VEC_COLS := HIDDEN_SIZE_ / (BYTES_PER_LDG_ / sizeof input_t_);
            Main.LDGS := HIDDEN_SIZE_ / (BYTES_PER_LDG_ / sizeof input_t_)
                         / (CTAS_PER_ROW_ * (WARPS_N_ * 32));
            Main.SMEM_BYTES_FWD := fwd |}.
Proof.
  intros weight_t_ input_t_ output_t_ compute_t_ index_t_
         HIDDEN_SIZE_ CTAS_PER_ROW_ WARPS_M_ WARPS_N_ BYTES_PER_LDG_
         reduce_t_ dgrad fwd wgrad
         HC HM HN Hone Hi Ho Hw Hc HH HB Hthreads Hrow Hper Hrows Hbytes
         Htile HT HR HS Hd Hwg Hsum.
  assert (HCi : nonneg_int CTAS_PER_ROW_) by (unfold nonneg_int in *; nia).
  assert (HMi : nonneg_int WARPS_M_) by (unfold nonneg_int in *; nia).
  assert (HNi : nonneg_int WARPS_N_) by (unfold nonneg_int in *; nia).
  assert (HMN : nonneg_int (WARPS_M_ * WARPS_N_)) by (unfold nonneg_int in *; nia).
  assert (HN32 : nonneg_int (WARPS_N_ * 32)) by (unfold nonneg_int in *; nia).
  assert (HMN32 : nonneg_int (WARPS_M_ * (WARPS_N_ * 32)))
    by (unfold nonneg_int in *; nia).
  assert (H32 : nonneg_int 32) by (unfold nonneg_int; lia).
  assert (Helts : nonneg_int (BYTES_PER_LDG_ / sizeof input_t_)).
  { unfold nonneg_int in *. split; [apply Z.div_pos; lia|].
    apply Z.div_le_upper_bound; nia. }
  assert (Helts1 : 1 <= BYTES_PER_LDG_ / sizeof input_t_).
  { apply Z.div_le_lower_bound; lia. }
  assert (Hvec : nonneg_int (HIDDEN_SIZE_ / (BYTES_PER_LDG_ / sizeof input_t_))).
  { unfold nonneg_int in *. split; [apply Z.div_pos; lia|].
    apply Z.div_le_upper_bound; nia. }
  assert (Hldgs : nonneg_int (HIDDEN_SIZE_ / (BYTES_PER_LDG_ / sizeof input_t_)
                              / (CTAS_PER_ROW_ * (WARPS_N_ * 32)))).
  { unfold nonneg_int in *. split; [apply Z.div_pos; nia|].
    apply Z.div_le_upper_bound; nia. }
  assert (Hexact : HIDDEN_SIZE_ / (BYTES_PER_LDG_ / sizeof input_t_)
                   / (CTAS_PER_ROW_ * (WARPS_N_ * 32))
                   * (CTAS_PER_ROW_ * (WARPS_N_ * 32))
                   = HIDDEN_SIZE_ / (BYTES_PER_LDG_ / sizeof input_t_)).
  { rewrite Z.mul_comm. symmetry. apply Z.div_exact; [nia | assumption]. }
  unfold Main.Kernel_traits, enum, sizeof_, THREADS_PER_WARP. cbv zeta.
  cbn [Base.Kernel_traits_base Base.input_t Base.weight_t Base.output_t
       Base.compute_t cval uint32_t int bind].
  ok mul_exact. ok mul_exact.
  ok div_exact.
  ok mul_exact. ok mul_exact. ok mul_exact. ok mul_exact.
  match goal with
  | |- context [bind (if gt ?a ?b then ?x else ?y) _] =>
      assert (Hwgrad : (if gt a b then x else y) = Ok (mk ULong wgrad))
  end.
  { rewrite gt_held by side. cbn [cval int enumerator].
    unfold wgrad in *.
    destruct (Z.gtb_spec CTAS_PER_ROW_ 1) as [Hgt|Hle].
    - rewrite (proj2 (Z.ltb_lt 1 CTAS_PER_ROW_)) by lia.
      vm_compute. reflexivity.
    - rewrite (proj2 (Z.ltb_ge 1 CTAS_PER_ROW_)) in * by lia.
      ok mul_exact. settle_types. ok mul_exact. settle_types. reflexivity. }
  rewrite Hwgrad. carry.
  rewrite !eq_held by side. cbn [cval int enumerator].
  replace ((WARPS_M_ =? 1) || (CTAS_PER_ROW_ =? 1)) with true
    by (destruct Hone as [E|E]; rewrite E, ?orb_true_r; reflexivity).
  carry.
  rewrite HT. cbn [Main.instantiate bind].
  rewrite HR. cbn [Main.instantiate bind].
  rewrite add_enumerators by assumption. carry.
  rewrite !ge_held by side. cbn [cval size_t].
  rewrite (proj2 (Z.geb_le (sizeof input_t_) (sizeof output_t_))) by lia.
  rewrite (proj2 (Z.geb_le (sizeof input_t_) (sizeof weight_t_))) by lia.
  carry.
  ok mul_exact. settle_types.
  ok div_exact. settle_types.
  ok div_exact. settle_types.
  ok mul_exact. settle_types.
  ok eq_held. rewrite Hexact, Z.eqb_refl. carry.
  rewrite HS. cbn [Main.instantiate bind].
  reflexivity.
Qed.

(** What the assertions of lines 96, 112 and 113 ask. *)
Lemma main_assertions weight_t_ input_t_ output_t_ compute_t_ index_t_
    HIDDEN_SIZE_ CTAS_PER_ROW_ WARPS_M_ WARPS_N_ BYTES_PER_LDG_ t :
  uint32 CTAS_PER_ROW_ -> uint32 WARPS_M_ ->
  uint64 (sizeof input_t_) -> uint64 (sizeof output_t_) ->
  uint64 (sizeof weight_t_) ->
  Main.Kernel_traits TypeToVec2 Reducer_SMEM_BYTES Stats_SMEM_BYTES
    weight_t_ input_t_ output_t_ compute_t_ index_t_
    HIDDEN_SIZE_ CTAS_PER_ROW_ WARPS_M_ WARPS_N_ BYTES_PER_LDG_ = Ok t ->
  (WARPS_M_ = 1 \/ CTAS_PER_ROW_ = 1) /\
  sizeof output_t_ <= sizeof input_t_ /\
  sizeof weight_t_ <= sizeof input_t_.
Proof.
  intros HC HM Hi Ho Hw Hok. open_main Hok. subst.
  unfold sizeof_ in *. cbn [cval uint32_t] in *.
  repeat match goal with
  | H : context [CInt.eq ?a ?b] |- _ =>
      rewrite (eq_held a b ltac:(held_tac) ltac:(held_tac)) in H
  | H : ge ?a ?b = true |- _ =>
      rewrite (ge_held a b ltac:(held_tac) ltac:(held_tac)) in H
  end.
  cbn [cval enumerator int size_t] in *.
  repeat match goal with
  | H : _ || _ = true |- _ => apply orb_true_iff in H
  | H : (_ >=? _) = true |- _ => apply Z.geb_le in H
  end.
  repeat split; try assumption.
  match goal with
  | H : (_ =? _) = true \/ (_ =? _) = true |- _ =>
      destruct H as [H|H]; apply Z.eqb_eq in H; [left | right]; exact H
  end.
Qed.

(** X13: with well-formed collaborators and arguments whose products fit an
    int, the main resolver accepts exactly when there is at least one block
    per row and one warp across the row, one warp per row or one block per
    row, an input element no larger than a load and no smaller than the
    output and weight elements, and the vectorized columns are a multiple of
    blocks * threads-per-row; it then yields the enumerators given here, and
    otherwise it is rejected. *)
Theorem main_accepts_exactly :
  forall weight_t_ input_t_ output_t_ compute_t_ index_t_
         HIDDEN_SIZE_ CTAS_PER_ROW_ WARPS_M_ WARPS_N_ BYTES_PER_LDG_
         reduce_t_ dgrad fwd,
    let wgrad := if 1 <? CTAS_PER_ROW_ then 0
                 else WARPS_M_ * HIDDEN_SIZE_ * sizeof compute_t_ in
    let admissible :=
      1 <= CTAS_PER_ROW_ /\ 1 <= WARPS_N_ /\
      (WARPS_M_ = 1 \/ CTAS_PER_ROW_ = 1) /\
      sizeof input_t_ <= BYTES_PER_LDG_ /\
      sizeof output_t_ <= sizeof input_t_ /\
      sizeof weight_t_ <= sizeof input_t_ /\
      (HIDDEN_SIZE_ / (BYTES_PER_LDG_ / sizeof input_t_))
        mod (CTAS_PER_ROW_ * (WARPS_N_ * 32)) = 0 in
    nonneg_int CTAS_PER_ROW_ -> nonneg_int WARPS_M_ ->
    nonneg_int (WARPS_N_ * 32) ->
    1 <= sizeof input_t_ -> uint64 (sizeof input_t_) ->
    uint64 (sizeof output_t_) -> uint64 (sizeof weight_t_) ->
    uint64 (sizeof compute_t_) ->
    nonneg_int HIDDEN_SIZE_ -> nonneg_int BYTES_PER_LDG_ ->
    nonneg_int (WARPS_M_ * WARPS_N_ * 32) ->
    nonneg_int (WARPS_N_ * 32 * BYTES_PER_LDG_) ->
    nonneg_int (CTAS_PER_ROW_ * (WARPS_N_ * 32)) ->
    nonneg_int (WARPS_M_ * HIDDEN_SIZE_) ->
    nonneg_int (HIDDEN_SIZE_ * sizeof input_t_) ->
    TypeToVec2 compute_t_ = Some reduce_t_ ->
    Reducer_SMEM_BYTES reduce_t_ CTAS_PER_ROW_ WARPS_M_ WARPS_N_ = Some dgrad ->
    Stats_SMEM_BYTES compute_t_ CTAS_PER_ROW_ WARPS_M_ WARPS_N_ = Some fwd ->
    nonneg_int dgrad -> nonneg_int wgrad -> nonneg_int (dgrad + wgrad) ->
    (admissible ->
     Main.Kernel_traits TypeToVec2 Reducer_SMEM_BYTES Stats_SMEM_BYTES
       weight_t_ input_t_ output_t_ compute_t_ index_t_
       HIDDEN_SIZE_ CTAS_PER_ROW_ WARPS_M_ WARPS_N_ BYTES_PER_LDG_
     = Ok {| Main.base :=
               Base.Kernel_traits_base HIDDEN_SIZE_ weight_t_ input_t_ output_t_
                 compute_t_ index_t_ (WARPS_M_ * WARPS_N_ * 32);
             Main.CTAS_PER_ROW := CTAS_PER_ROW_;
             Main.WARPS_M := WARPS_M_;
             Main.WARPS_N := WARPS_N_;
             Main.COLS := HIDDEN_SIZE_;
             Main.HIDDEN_SIZE := HIDDEN_SIZE_;
             Main.BYTES_PER_LDG := BYTES_PER_LDG_;
             Main.NUM_ELTS := BYTES_PER_LDG_ / sizeof input_t_;
             Main.THREADS_PER_ROW := WARPS_N_ * 32;
             Main.THREADS_PER_CTA := WARPS_M_ * (WARPS_N_ * 32);
             Main.ROWS_PER_CTA := WARPS_M_;
             Main.BYTES_PER_ROW := HIDDEN_SIZE_ * sizeof input_t_;
             Main.BYTES_PER_ROW_PER_CTA := WARPS_N_ * 32 * BYTES_PER_LDG_;
             Main.SMEM_BYTES_WGRAD := wgrad;
             Main.reduce_t := reduce_t_;
             Main.SMEM_BYTES_DGRAD := dgrad;
             Main.SMEM_BYTES := dgrad + wgrad;
             Main.ELTS_PER_LDG := BYTES_PER_LDG_ / sizeof input_t_;
             Main.VEC_COLS_PER_LDG := CTAS_PER_ROW_ * (WARPS_N_ * 32);
             Main.VEC_COLS := HIDDEN_SIZE_ / (BYTES_PER_LDG_ / sizeof input_t_);
             Main.LDGS := HIDDEN_SIZE_ / (BYTES_PER_LDG_ / sizeof input_t_)
                          / (CTAS_PER_ROW_ * (WARPS_N_ * 32));
             Main.SMEM_BYTES_FWD := fwd |}) /\
    (~ admissible ->
     accepted (Main.Kernel_traits TypeToVec2 Reducer_SMEM_BYTES Stats_SMEM_BYTES
                 weight_t_ input_t_ output_t_ compute_t_ index_t_
                 HIDDEN_SIZE_ CTAS_PER_ROW_ WARPS_M_ WARPS_N_ BYTES_PER_LDG_)
     = false).
Proof.
  intros weight_t_ input_t_ output_t_ compute_t_ index_t_
         HIDDEN_SIZE_ CTAS_PER_ROW_ WARPS_M_ WARPS_N_ BYTES_PER_LDG_
         reduce_t_ dgrad fwd wgrad admissible
         HCi HM32 HN32 Hi Hi64 Ho64 Hw64 Hc HH HB Hthreads Hrow Hper Hrows
         Hbytes HT HR HS Hd Hwg Hsum.
  split.
  - intros (HC1 & HN1 & Hone & HiB & Hoi & Hwi & Htile).
    apply main_runs; try assumption; unfold uint64, nonneg_int in *; lia.
  - intros Hnot.
    destruct (Main.Kernel_traits _ _ _ _ _ _ _ _ _ _ _ _ _) as [t|d] eqn:Hok;
      [exfalso | reflexivity].
    apply Hnot.
    assert (HH32 : uint32 HIDDEN_SIZE_) by (unfold uint32, nonneg_int in *; lia).
    assert (HB32 : uint32 BYTES_PER_LDG_) by (unfold uint32, nonneg_int in *; lia).
    assert (HC32 : uint32 CTAS_PER_ROW_) by (unfold uint32, nonneg_int in *; lia).
    assert (HM32' : uint32 WARPS_M_) by (unfold uint32, nonneg_int in *; lia).
    destruct (main_loads _ _ _ _ _ _ _ _ _ _ _ _ _ _ HH32 HB32 HCi HN32 Hi64 Hok)
      as (_ & _ & _ & _ & _ & _ & Helts & Henz & Hvcpl & Hpnz & Hcols & _ & Htile).
    destruct (main_assertions _ _ _ _ _ _ _ _ _ _ _ HC32 HM32' Hi64 Ho64 Hw64 Hok)
      as (Hone & Hoi & Hwi).
    unfold admissible. rewrite <- Helts, <- Hcols, <- Hvcpl, <- Htile.
    rewrite Hvcpl in Hpnz. rewrite Helts in Henz.
    repeat split; try assumption.
    + unfold nonneg_int in *. nia.
    + unfold nonneg_int in *. nia.
    + destruct (Z.le_gt_cases (sizeof input_t_) BYTES_PER_LDG_) as [|Hlt];
        [assumption|].
      rewrite Z.div_small in Henz by (unfold nonneg_int in *; lia). congruence.
    + apply Z.mod_mul. rewrite Hvcpl. assumption.
Qed.

End MoreOnMain.

(** X1 with 1024 threads, accepted, and with 250 threads, rejected. *)
Lemma finalize_accepts_exactly_witness :
  accepted (Finalize.Kernel_traits_finalize 1024 two_byte two_byte two_byte
              four_byte four_byte 1024 4) = true /\
  accepted (Finalize.Kernel_traits_finalize 1024 two_byte two_byte two_byte
              four_byte four_byte 250 4) = false.
Proof.
  split.
  - rewrite (proj1 (finalize_accepts_exactly 1024 two_byte two_byte two_byte
                      four_byte four_byte 1024 4
                      ltac:(ranges) ltac:(ranges) ltac:(ranges) ltac:(cbn; lia)
                      ltac:(ranges) ltac:(ranges) ltac:(ranges) ltac:(ranges))).
    + reflexivity.
    + cbn. repeat split; lia.
  - apply (proj2 (finalize_accepts_exactly 1024 two_byte two_byte two_byte
                    four_byte four_byte 250 4
                    ltac:(ranges) ltac:(ranges) ltac:(ranges) ltac:(cbn; lia)
                    ltac:(ranges) ltac:(ranges) ltac:(ranges) ltac:(ranges))).
    intros (Hwarps & _). discriminate Hwarps.
Defined.


(** X7 with 2-byte input elements: 16 bytes per load are accepted, 1 byte
    per load is rejected. *)
Lemma main_ldg_holds_an_element_witness :
  (exists t,
      Sample.Kernel_traits two_byte two_byte two_byte four_byte four_byte
        1024 1 1 4 16 = Ok t /\
      1 <= Main.ELTS_PER_LDG t /\
      Main.ELTS_PER_LDG t * 2 <= Main.BYTES_PER_LDG t) /\
  accepted (Sample.Kernel_traits two_byte two_byte two_byte four_byte four_byte
              1024 1 1 4 1) = false.
Proof.
  split.
  - run.
    destruct (proj1 (main_ldg_holds_an_element Sample.TypeToVec2
                       Sample.Reducer_SMEM_BYTES Sample.Stats_SMEM_BYTES
                       two_byte two_byte two_byte four_byte four_byte
                       1024 1 1 4 16 ltac:(ranges) ltac:(ranges) ltac:(ranges))
                _ ltac:(vm_compute; reflexivity)) as (_ & _ & H1 & H2).
    split; [exact H1 | exact H2].
  - apply (proj2 (main_ldg_holds_an_element Sample.TypeToVec2
                    Sample.Reducer_SMEM_BYTES Sample.Stats_SMEM_BYTES
                    two_byte two_byte two_byte four_byte four_byte
                    1024 1 1 4 1 ltac:(ranges) ltac:(ranges) ltac:(ranges))).
    cbn. lia.
Defined.

(** X8 with four warps across the row; with 2^27 + 1 warps, where the
    threads per row wrap to 32; and with no block per row, rejected. *)
Lemma main_positive_topology_witness :
  (exists t,
      Sample.Kernel_traits two_byte two_byte two_byte four_byte four_byte
        1024 1 1 4 16 = Ok t /\
      Main.THREADS_PER_ROW t = 128 /\ Main.VEC_COLS_PER_LDG t = 128) /\
  (exists t,
      Sample.Kernel_traits two_byte two_byte two_byte four_byte four_byte
        1024 1 1 134217729 16 = Ok t /\
      Main.WARPS_N t = 134217729 /\
      Main.THREADS_PER_ROW t = 32 /\ Main.VEC_COLS_PER_LDG t = 32) /\
  accepted (Sample.Kernel_traits two_byte two_byte two_byte four_byte four_byte
              1024 0 1 4 16) = false.
Proof.
  split; [|split].
  - run.
    destruct (proj1 (main_positive_topology Sample.TypeToVec2
                       Sample.Reducer_SMEM_BYTES Sample.Stats_SMEM_BYTES
                       two_byte two_byte two_byte four_byte four_byte
                       1024 1 1 4 16 ltac:(ranges) ltac:(ranges) ltac:(ranges)
                       ltac:(ranges) ltac:(ranges))
                _ ltac:(vm_compute; reflexivity))
      as (_ & _ & _ & _ & _ & _ & _ & _ & Hfit).
    exact (Hfit ltac:(lia)).
  - run.
    destruct (proj1 (main_positive_topology Sample.TypeToVec2
                       Sample.Reducer_SMEM_BYTES Sample.Stats_SMEM_BYTES
                       two_byte two_byte two_byte four_byte four_byte
                       1024 1 1 134217729 16 ltac:(ranges) ltac:(ranges)
                       ltac:(ranges) ltac:(ranges) ltac:(ranges))
                _ ltac:(vm_compute; reflexivity))
      as (_ & _ & Hn & _ & Htpr & _ & Hvc & _).
    split; [exact Hn|]. split; [exact Htpr | exact Hvc].
  - apply (proj2 (main_positive_topology Sample.TypeToVec2
                    Sample.Reducer_SMEM_BYTES Sample.Stats_SMEM_BYTES
                    two_byte two_byte two_byte four_byte four_byte
                    1024 0 1 4 16 ltac:(ranges) ltac:(ranges) ltac:(ranges)
                    ltac:(ranges) ltac:(ranges))).
    left. reflexivity.
Defined.


(** X10 with two warps per row and four across. *)
Lemma main_threads_agree_with_base_witness :
  exists t,
    Sample.Kernel_traits two_byte two_byte two_byte four_byte four_byte
      1024 1 2 4 16 = Ok t /\
    Main.THREADS_PER_CTA t = Base.THREADS_PER_CTA (Main.base t).
Proof.
  run.
  apply (main_threads_agree_with_base Sample.TypeToVec2
           Sample.Reducer_SMEM_BYTES Sample.Stats_SMEM_BYTES
           two_byte two_byte two_byte four_byte four_byte
           1024 1 2 4 16 _ ltac:(ranges) ltac:(ranges)
           ltac:(vm_compute; reflexivity)).
Defined.

(** X12 with one block per row and with two. *)
Lemma main_smem_bytes_total_witness :
  (exists t,
      Sample.Kernel_traits two_byte two_byte two_byte four_byte four_byte
        1024 1 2 4 16 = Ok t /\
      Main.SMEM_BYTES t = Main.SMEM_BYTES_DGRAD t + Main.SMEM_BYTES_WGRAD t) /\
  (exists t,
      Sample.Kernel_traits two_byte two_byte two_byte four_byte four_byte
        2048 2 1 4 16 = Ok t /\
      Main.SMEM_BYTES t = Main.SMEM_BYTES_DGRAD t).
Proof.
  split.
  - run.
    apply (proj2 (main_smem_bytes_total Sample.TypeToVec2
                    Sample.Reducer_SMEM_BYTES Sample.Stats_SMEM_BYTES
                    two_byte two_byte two_byte four_byte four_byte
                    1024 1 2 4 16 _ ltac:(ranges) ltac:(ranges) ltac:(ranges)
                    ltac:(ranges) ltac:(vm_compute; reflexivity)
                    ltac:(ranges))).
    cbn. lia.
  - run.
    apply (proj1 (main_smem_bytes_total Sample.TypeToVec2
                    Sample.Reducer_SMEM_BYTES Sample.Stats_SMEM_BYTES
                    two_byte two_byte two_byte four_byte four_byte
                    2048 2 1 4 16 _ ltac:(ranges) ltac:(ranges) ltac:(ranges)
                    ltac:(ranges) ltac:(vm_compute; reflexivity)
                    ltac:(ranges))).
    lia.
Defined.

(** X13 with four warps across the row, accepted, and with three,
    rejected. *)
Lemma main_accepts_exactly_witness :
  accepted (Sample.Kernel_traits two_byte two_byte two_byte four_byte four_byte
              1024 1 1 4 16) = true /\
  accepted (Sample.Kernel_traits two_byte two_byte two_byte four_byte four_byte
              1024 1 1 3 16) = false.
Proof.
  split.
  - unfold Sample.Kernel_traits.
    rewrite (proj1 (main_accepts_exactly Sample.TypeToVec2
                      Sample.Reducer_SMEM_BYTES Sample.Stats_SMEM_BYTES
                      two_byte two_byte two_byte four_byte four_byte
                      1024 1 1 4 16 {| sizeof := 8 |} 32 32
                      ltac:(ranges) ltac:(ranges) ltac:(ranges) ltac:(cbn; lia)
                      ltac:(ranges) ltac:(ranges) ltac:(ranges) ltac:(ranges)
                      ltac:(ranges) ltac:(ranges) ltac:(ranges) ltac:(ranges)
                      ltac:(ranges) ltac:(ranges) ltac:(ranges)
                      ltac:(reflexivity) ltac:(reflexivity) ltac:(reflexivity)
                      ltac:(ranges) ltac:(ranges) ltac:(ranges))).
    + reflexivity.
    + cbn. repeat split; lia.
  - unfold Sample.Kernel_traits.
    apply (proj2 (main_accepts_exactly Sample.TypeToVec2
                    Sample.Reducer_SMEM_BYTES Sample.Stats_SMEM_BYTES
                    two_byte two_byte two_byte four_byte four_byte
                    1024 1 1 3 16 {| sizeof := 8 |} 24 24
                    ltac:(ranges) ltac:(ranges) ltac:(ranges) ltac:(cbn; lia)
                    ltac:(ranges) ltac:(ranges) ltac:(ranges) ltac:(ranges)
                    ltac:(ranges) ltac:(ranges) ltac:(ranges) ltac:(ranges)
                    ltac:(ranges) ltac:(ranges) ltac:(ranges)
                    ltac:(reflexivity) ltac:(reflexivity) ltac:(reflexivity)
                    ltac:(ranges) ltac:(ranges) ltac:(ranges))).
    intros (_ & _ & _ & _ & _ & _ & Htile). discriminate Htile.
Defined.
